(** * Angular/React store bridge: a shallow embedding

    The repository couples an Angular container (NgRx store, [DataService],
    [StoreBridgeService]) with a React micro-frontend over a
    [BroadcastChannel].  This development embeds

    - [DataService]                (services/data.service.ts),
    - the NgRx feature state       (app.state.ts, app.reducer.ts, app.selectors.ts),
    - [StoreBridgeService]         (services/store-bridge.service.ts),
    - the React [App] receive path (react-mfe, [handleBroadcastMessage]),

    and proves the properties of the bridging protocol about them.

    Conventions of the model.  JavaScript numbers that occur in the code are
    counts, lengths and ids; they are integers and are modelled by [Z].
    Arrays are lists of unbounded length.  The simulated latency
    ([delay(500)]) only postpones a delivery; an observable is modelled by the
    notifications it delivers, in order, and the delay is erased. *)

From Stdlib Require Import ZArith List String Ascii Bool Lia DecimalString FinFun.
From Stdlib Require Import DecimalPos DecimalZ.
Import ListNotations.
Open Scope string_scope.
Open Scope list_scope.
Open Scope Z_scope.

Set Implicit Arguments.

(** ** JavaScript values *)

(** The untyped data of the program ([any], [any[]], message bodies).  An
    object is the list of its own enumerable properties in enumeration order;
    a property is read by the first entry with its key. *)
#[warnings="-register-all"]
Inductive JsValue : Type :=
| JUndefined
| JNull
| JBool (b : bool)
| JNum (n : Z)
| JStr (s : string)
| JArr (elements : list JsValue)
| JObj (properties : list (string * JsValue)).

(** [String(n)] and [`${n}`] for an integer [n]. *)
Definition numToString (n : Z) : string := NilZero.string_of_int (Z.to_int n).

(** ToBoolean: [if (v)], [!v], [a && b], [a || b]. *)
Definition truthy (v : JsValue) : bool :=
  match v with
  | JUndefined | JNull => false
  | JBool b => b
  | JNum n => negb (n =? 0)
  | JStr s => negb (s =? EmptyString)%string
  | JArr _ | JObj _ => true
  end.

Fixpoint assoc (key : string) (ps : list (string * JsValue)) : option JsValue :=
  match ps with
  | [] => None
  | (k, v) :: ps' => if (k =? key)%string then Some v else assoc key ps'
  end.

(** [v.key] for a value [v] that is neither [null] nor [undefined]: an own
    property of an object, [undefined] when there is none.  Primitives and
    arrays have no property named [type] or [payload]. *)
Definition prop (key : string) (v : JsValue) : JsValue :=
  match v with
  | JObj ps => match assoc key ps with Some x => x | None => JUndefined end
  | _ => JUndefined
  end.

(** [v === s] for a string constant [s]. *)
Definition strictEqStr (v : JsValue) (s : string) : bool :=
  match v with
  | JStr s' => (s' =? s)%string
  | _ => false
  end.

(** The keys of an object, [Object.keys(v)]. *)
Definition keys (v : JsValue) : list string :=
  match v with
  | JObj ps => map fst ps
  | _ => []
  end.

Definition hasField (key : string) (v : JsValue) : bool :=
  existsb (fun k => (k =? key)%string) (keys v).

(** ** Observables (rxjs), as far as the services use them *)

Inductive Notification (A : Type) : Type :=
| Next (value : A)
| Error (message : string)
| Complete.
Arguments Error {A} message.
Arguments Complete {A}.

(** A cold, finite observable is the list of notifications a subscriber
    receives. *)
Definition Observable (A : Type) : Type := list (Notification A).

(** [of(value)]. *)
Definition rx_of {A : Type} (value : A) : Observable A := [Next value; Complete].

(** [pipe(delay(ms))]: the same notifications, later. *)
Definition delay {A : Type} (ms : Z) (source : Observable A) : Observable A := source.

(** An observer [{ next, error }] whose callbacks produce effects of type [R]. *)
Record Observer (A R : Type) : Type := {
  next : A -> list R;
  error : string -> list R
}.

(** [source.subscribe(observer)]: the effects of the callbacks, in delivery
    order; nothing is delivered after an error or a completion. *)
Fixpoint subscribe {A R : Type} (source : Observable A) (observer : Observer A R) : list R :=
  match source with
  | [] => []
  | Next value :: rest => next observer value ++ subscribe rest observer
  | Error message :: _ => error observer message
  | Complete :: _ => []
  end.

(** ** DataService (services/data.service.ts) *)

Module DataService.

Record DataItem : Type := {
  id : Z;
  name : string;
  description : string
}.

(** The service object: its one private field. *)
Record t : Type := { sampleData : list DataItem }.

(** The array literal of the field initialiser and of [resetData]. *)
Definition baseline : list DataItem :=
  [ {| id := 1; name := "Item 1"; description := "Description for item 1" |};
    {| id := 2; name := "Item 2"; description := "Description for item 2" |};
    {| id := 3; name := "Item 3"; description := "Description for item 3" |};
    {| id := 4; name := "Item 4"; description := "Description for item 4" |};
    {| id := 5; name := "Item 5"; description := "Description for item 5" |};
    {| id := 6; name := "Item 6"; description := "Description for item 6" |};
    {| id := 7; name := "Item 7"; description := "Description for item 7" |} ].

Definition initial : t := {| sampleData := baseline |}.

(** [Array.from({ length }, (_, index) => f(index))]; ToLength takes a
    negative length to 0. *)
Definition arrayFromLength {A : Type} (len : Z) (f : nat -> A) : list A :=
  map f (seq 0 (Z.to_nat len)).

(** A parameter with a default value: the default replaces [undefined]
    only. *)
Definition defaultArg {A : Type} (dflt : A) (arg : option A) : A :=
  match arg with
  | Some a => a
  | None => dflt
  end.

Definition getSampleData (this : t) : Observable (list DataItem) * t :=
  (delay 1000 (rx_of (sampleData this)), this).

Definition addCustomItem (item_name item_description : string) (this : t)
  : Observable (list DataItem) * t :=
  let newId := Z.of_nat (List.length (sampleData this)) + 1 in
  let newItem := {| id := newId; name := item_name; description := item_description |} in
  let this' := {| sampleData := sampleData this ++ [newItem] |} in
  (delay 500 (rx_of (sampleData this')), this').

(** The item the arrow function of [addMoreData] builds for [newId]. *)
Definition generated (newId : Z) : DataItem :=
  {| id := newId;
     name := ("Item " ++ numToString newId)%string;
     description := ("Description for item " ++ numToString newId)%string |}.

Definition addMoreData (count : option Z) (this : t) : Observable (list DataItem) * t :=
  let count := defaultArg 5 count in
  let newItems :=
    arrayFromLength count (fun index =>
      let newId := Z.of_nat (List.length (sampleData this)) + Z.of_nat index + 1 in
      generated newId) in
  let this' := {| sampleData := sampleData this ++ newItems |} in
  (delay 500 (rx_of (sampleData this')), this').

Definition resetData (this : t) : Observable (list DataItem) * t :=
  let this' := {| sampleData := baseline |} in
  (delay 500 (rx_of (sampleData this')), this').

(** *** Histories of calls *)

Inductive Call : Type :=
| CallGetSampleData
| CallAddCustomItem (item_name item_description : string)
| CallAddMoreData (count : option Z)
| CallResetData.

Definition call (c : Call) (this : t) : Observable (list DataItem) * t :=
  match c with
  | CallGetSampleData => getSampleData this
  | CallAddCustomItem n d => addCustomItem n d this
  | CallAddMoreData count => addMoreData count this
  | CallResetData => resetData this
  end.

(** The service after a history of calls, oldest first. *)
Definition after (history : list Call) (this : t) : t :=
  fold_left (fun s c => snd (call c s)) history this.

Definition ids (this : t) : list Z := map id (sampleData this).

(** The largest id in the list, 0 for an empty list. *)
Definition maxId (this : t) : Z := fold_right Z.max 0 (ids this).

(** The ids are 1, 2, ..., length, in this order. *)
Definition contiguous (this : t) : Prop :=
  ids this = map Z.of_nat (seq 1 (List.length (sampleData this))).

End DataService.

(** ** JSON.stringify, the comparator of the data broadcast *)

Module JSON.

Definition dquote : string := String (ascii_of_nat 34) EmptyString.

Definition hexDigit (n : nat) : string :=
  String.substring n 1 "0123456789abcdef".

(** One code unit inside a JSON string literal (QuoteJSONString). *)
Definition quoteChar (c : ascii) : string :=
  let n := nat_of_ascii c in
  if (n =? 8)%nat then "\b"
  else if (n =? 9)%nat then "\t"
  else if (n =? 10)%nat then "\n"
  else if (n =? 12)%nat then "\f"
  else if (n =? 13)%nat then "\r"
  else if (n =? 34)%nat then ("\" ++ dquote)%string
  else if (n =? 92)%nat then "\\"
  else if (n <? 32)%nat then ("\u00" ++ hexDigit (n / 16) ++ hexDigit (n mod 16))%string
  else String c EmptyString.

Fixpoint quoteBody (s : string) : string :=
  match s with
  | EmptyString => EmptyString
  | String c rest => (quoteChar c ++ quoteBody rest)%string
  end.

Definition quote (s : string) : string := (dquote ++ quoteBody s ++ dquote)%string.

Fixpoint join (sep : string) (parts : list string) : string :=
  match parts with
  | [] => EmptyString
  | [part] => part
  | part :: rest => (part ++ sep ++ join sep rest)%string
  end.

(** [JSON.stringify(v)]; [None] is the result [undefined].  An [undefined]
    element of an array is written [null], an [undefined] property is left
    out. *)
Fixpoint stringify (v : JsValue) : option string :=
  match v with
  | JUndefined => None
  | JNull => Some "null"
  | JBool true => Some "true"
  | JBool false => Some "false"
  | JNum n => Some (numToString n)
  | JStr s => Some (quote s)
  | JArr elements =>
      Some ("[" ++
            join "," (map (fun e => match stringify e with
                                    | Some text => text
                                    | None => "null"
                                    end) elements)
            ++ "]")%string
  | JObj properties =>
      Some ("{" ++
            join "," (flat_map (fun p => match stringify (snd p) with
                                         | Some text => [(quote (fst p) ++ ":" ++ text)%string]
                                         | None => []
                                         end) properties)
            ++ "}")%string
  end.

Definition optionStringEqb (a b : option string) : bool :=
  match a, b with
  | Some x, Some y => (x =? y)%string
  | None, None => true
  | _, _ => false
  end.

(** [(prev, curr) => JSON.stringify(prev) === JSON.stringify(curr)]. *)
Definition sameText (prev curr : JsValue) : bool :=
  optionStringEqb (stringify prev) (stringify curr).

End JSON.

(** ** distinctUntilChanged (rxjs) *)

Section DistinctUntilChanged.

Variable K : Type.
Variable comparator : K -> K -> bool.

(** The values let through after [previous] was emitted. *)
Fixpoint distinctAfter (previous : K) (values : list K) : list K :=
  match values with
  | [] => []
  | value :: rest =>
      if comparator previous value then distinctAfter previous rest
      else value :: distinctAfter value rest
  end.

(** The first value always passes; a later value passes when the comparator
    tells it apart from the last value emitted. *)
Definition distinctUntilChanged (values : list K) : list K :=
  match values with
  | [] => []
  | value :: rest => value :: distinctAfter value rest
  end.

(** No two neighbours of the list are the same value. *)
Fixpoint noRepeat (values : list K) : Prop :=
  match values with
  | [] => True
  | value :: rest =>
      match rest with
      | [] => True
      | value' :: _ => value <> value' /\ noRepeat rest
      end
  end.

End DistinctUntilChanged.

(** ** The NgRx feature state (app.state.ts, app.actions.ts, app.reducer.ts,
       app.selectors.ts) *)

Module AppStore.

Record AppState : Type := {
  isLoaded : bool;
  loading : bool;
  error : option string;
  data : list JsValue
}.

Definition initialAppState : AppState :=
  {| isLoaded := false; loading := false; error := None; data := [] |}.

Inductive Action : Type :=
| loadApp
| loadAppSuccess (data : list JsValue)
| loadAppFailure (error : string).

Definition appReducer (state : AppState) (action : Action) : AppState :=
  match action with
  | loadApp =>
      {| isLoaded := isLoaded state; loading := true; error := None; data := data state |}
  | loadAppSuccess d =>
      {| isLoaded := true; loading := false; error := error state; data := d |}
  | loadAppFailure e =>
      {| isLoaded := isLoaded state; loading := false; error := Some e; data := data state |}
  end.

Definition selectAppLoading (state : AppState) : bool := loading state.
Definition selectAppData (state : AppState) : list JsValue := data state.
Definition selectAppError (state : AppState) : option string := error state.

(** The selectors by name, for the record of store reads. *)
Inductive Selector : Type :=
| SelectAppLoading
| SelectAppLoaded
| SelectAppData
| SelectAppError.

End AppStore.

(** A [DataItem] seen as [any]: the object literal with its three
    properties. *)
Definition itemValue (item : DataService.DataItem) : JsValue :=
  JObj [ ("id", JNum (DataService.id item));
         ("name", JStr (DataService.name item));
         ("description", JStr (DataService.description item)) ].

(** A [DataItem[]] seen as [any]. *)
Definition itemsValue (items : list DataService.DataItem) : JsValue :=
  JArr (map itemValue items).

(** ** StoreBridgeService (services/store-bridge.service.ts) *)

Module StoreBridgeService.

Definition DATA_EVENT : string := "APP_STORE_DATA_UPDATE".
Definition LOADING_EVENT : string := "APP_STORE_LOADING_UPDATE".
Definition REQUEST_DATA_EVENT : string := "APP_STORE_REQUEST_DATA".
Definition REQUEST_LOADING_EVENT : string := "APP_STORE_REQUEST_LOADING".
Definition ADD_MORE_DATA_EVENT : string := "APP_STORE_ADD_MORE_DATA".
Definition RESET_DATA_EVENT : string := "APP_STORE_RESET_DATA".

(** What the service does to its collaborators, in program order. *)
Inductive Effect : Type :=
| PostMessage (message : JsValue)             (* broadcastChannel.postMessage *)
| StoreSelect (selector : AppStore.Selector)  (* store.select(selector), subscribed to *)
| StoreDispatch (action : AppStore.Action)    (* store.dispatch *)
| ProviderCall (c : DataService.Call).        (* a method of the DataService *)

(** A live subscription behind [distinctUntilChanged]: the value emitted
    last. *)
Record Subscription (K : Type) : Type := { lastEmitted : K }.

(** The fields of the service object. *)
Record t : Type := {
  dataSubscription : option (Subscription (list JsValue));
  loadingSubscription : option (Subscription bool);
  errorSubscription : option (Subscription (option string));
  activeListeners : Z
}.

(** The service together with the two injected collaborators it reads and
    mutates. *)
Record World : Type := {
  store : AppStore.AppState;
  dataService : DataService.t;
  this : t
}.

(** The state the field initialisers and the constructor leave. *)
Definition created : t :=
  {| dataSubscription := None;
     loadingSubscription := None;
     errorSubscription := None;
     activeListeners := 0 |}.

Definition withThis (w : World) (b : t) : World :=
  {| store := store w; dataService := dataService w; this := b |}.

Definition withDataService (w : World) (d : DataService.t) : World :=
  {| store := store w; dataService := d; this := this w |}.

(** The message [{ type: eventType, payload }]. *)
Definition message (eventType : string) (payload : JsValue) : JsValue :=
  JObj [("type", JStr eventType); ("payload", payload)].

Definition dispatchStoreEvent (eventType : string) (payload : JsValue) : list Effect :=
  [PostMessage (message eventType payload)].

(** The own enumerable properties [{...item}] copies: those of an object,
    the indexed elements of an array or of a string, none of another
    primitive. *)
Definition indexed (elements : list JsValue) : list (string * JsValue) :=
  combine (map (fun i => numToString (Z.of_nat i)) (seq 0 (List.length elements))) elements.

Definition ownProperties (item : JsValue) : list (string * JsValue) :=
  match item with
  | JObj properties => properties
  | JArr elements => indexed elements
  | JStr s => indexed (map (fun c => JStr (String c EmptyString)) (list_ascii_of_string s))
  | _ => []
  end.

(** [{...item}]. *)
Definition spread (item : JsValue) : JsValue := JObj (ownProperties item).

Definition sanitizeData (data : JsValue) : JsValue :=
  if negb (truthy data) then JArr []
  else match data with
       | JArr items => JArr (map (fun item => let safeCopy := spread item in safeCopy) items)
       | _ => data
       end.

(** [store.select(selectAppData).pipe(distinctUntilChanged()).subscribe(f).unsubscribe()]:
    the store replays its current state to a new subscriber, who is gone
    before the store changes. *)
Definition sendCurrentData (w : World) : World * list Effect :=
  (w, StoreSelect AppStore.SelectAppData
      :: dispatchStoreEvent DATA_EVENT (sanitizeData (JArr (AppStore.selectAppData (store w))))).

Definition sendCurrentLoadingState (w : World) : World * list Effect :=
  (w, StoreSelect AppStore.SelectAppLoading
      :: dispatchStoreEvent LOADING_EVENT (JBool (AppStore.selectAppLoading (store w)))).

Definition cleanupSubscriptions (b : t) : t :=
  {| dataSubscription := None;
     loadingSubscription := None;
     errorSubscription := None;
     activeListeners := activeListeners b |}.

(** Both subscriptions receive the current state at once, and each first
    value passes its [distinctUntilChanged]. *)
Definition startBroadcastingStoreUpdates (w : World) : World * list Effect :=
  let b := cleanupSubscriptions (this w) in
  let currentData := AppStore.selectAppData (store w) in
  let currentLoading := AppStore.selectAppLoading (store w) in
  (withThis w {| dataSubscription := Some {| lastEmitted := currentData |};
                 loadingSubscription := Some {| lastEmitted := currentLoading |};
                 errorSubscription := errorSubscription b;
                 activeListeners := activeListeners b |},
   (StoreSelect AppStore.SelectAppData
      :: dispatchStoreEvent DATA_EVENT (sanitizeData (JArr currentData)))
   ++ (StoreSelect AppStore.SelectAppLoading
         :: dispatchStoreEvent LOADING_EVENT (JBool currentLoading))).

Definition stopBroadcastingStoreUpdates (w : World) : World * list Effect :=
  (withThis w (cleanupSubscriptions (this w)), []).

(** The subscribers of [startBroadcastingStoreUpdates] when the store
    publishes [state]: the data subscriber first, it subscribed first.
    [store.select] itself drops a value that is the very value selected
    before; such a value has the JSON text of that one and does not pass the
    comparator below either, so the filter of [select] is left out. *)
Definition dataNext (state : AppStore.AppState) (b : t) : t * list Effect :=
  match dataSubscription b with
  | None => (b, [])
  | Some sub =>
      let curr := AppStore.selectAppData state in
      if JSON.sameText (JArr (lastEmitted sub)) (JArr curr) then (b, [])
      else ({| dataSubscription := Some {| lastEmitted := curr |};
               loadingSubscription := loadingSubscription b;
               errorSubscription := errorSubscription b;
               activeListeners := activeListeners b |},
            dispatchStoreEvent DATA_EVENT (sanitizeData (JArr curr)))
  end.

Definition loadingNext (state : AppStore.AppState) (b : t) : t * list Effect :=
  match loadingSubscription b with
  | None => (b, [])
  | Some sub =>
      let curr := AppStore.selectAppLoading state in
      if Bool.eqb (lastEmitted sub) curr then (b, [])
      else ({| dataSubscription := dataSubscription b;
               loadingSubscription := Some {| lastEmitted := curr |};
               errorSubscription := errorSubscription b;
               activeListeners := activeListeners b |},
            dispatchStoreEvent LOADING_EVENT (JBool curr))
  end.

(** The store moves to [state] and notifies the service. *)
Definition storeNext (state : AppStore.AppState) (w : World) : World * list Effect :=
  let (b1, e1) := dataNext state (this w) in
  let (b2, e2) := loadingNext state b1 in
  ({| store := state; dataService := dataService w; this := b2 |}, e1 ++ e2).

(** The store moves through [states], oldest first. *)
Fixpoint storeRun (states : list AppStore.AppState) (w : World) : World * list Effect :=
  match states with
  | [] => (w, [])
  | state :: rest =>
      let (w1, e1) := storeNext state w in
      let (w2, e2) := storeRun rest w1 in
      (w2, e1 ++ e2)
  end.

(** The observer both request handlers pass to [subscribe]. *)
Definition dataObserver : Observer (list DataService.DataItem) Effect :=
  {| next := fun data =>
       let safeData := sanitizeData (itemsValue data) in
       dispatchStoreEvent DATA_EVENT safeData
       ++ dispatchStoreEvent LOADING_EVENT (JBool false);
     error := fun _ => dispatchStoreEvent LOADING_EVENT (JBool false) |}.

(** A provider method as the injected service offers it. *)
Definition ProviderMethod (A : Type) : Type :=
  A -> DataService.t -> Observable (list DataService.DataItem) * DataService.t.

(** [handleAddMoreData] over the [addMoreData] of an injected provider. *)
Definition handleAddMoreDataWith (addMoreData : ProviderMethod (option Z))
           (count : option Z) (w : World) : World * list Effect :=
  let count := DataService.defaultArg 5 count in
  let (source, d) := addMoreData (Some count) (dataService w) in
  (withDataService w d,
   ProviderCall (DataService.CallAddMoreData (Some count)) :: subscribe source dataObserver).

Definition handleAddMoreData : option Z -> World -> World * list Effect :=
  handleAddMoreDataWith DataService.addMoreData.

Definition handleResetDataWith (resetData : ProviderMethod unit)
           (w : World) : World * list Effect :=
  let (source, d) := resetData tt (dataService w) in
  (withDataService w d,
   ProviderCall DataService.CallResetData :: subscribe source dataObserver).

Definition handleResetData : World -> World * list Effect :=
  handleResetDataWith (fun _ => DataService.resetData).

(** [event.data.payload] as the argument [count: number = 5]: [undefined]
    is the omitted argument, a number is itself.  A payload of another type
    is outside the signature; what [Array.from] makes of it goes through
    ECMAScript's string-to-number conversion and is not modelled. *)
Definition countArgument (payload : JsValue) : option (option Z) :=
  match payload with
  | JUndefined => Some None
  | JNum n => Some (Some n)
  | _ => None
  end.

(** A handler step; [None] marks a message outside the model (see
    [countArgument]). *)
Definition Step : Type := World -> option (World * list Effect).

Definition total (f : World -> World * list Effect) : Step := fun w => Some (f w).

Definition skip : Step := fun w => Some (w, []).

Definition andThen (first second : Step) : Step :=
  fun w =>
    match first w with
    | None => None
    | Some (w1, e1) =>
        match second w1 with
        | None => None
        | Some (w2, e2) => Some (w2, e1 ++ e2)
        end
    end.

Definition when (condition : bool) (body : Step) : Step :=
  if condition then body else skip.

Notation "a ;; b" := (andThen a b) (at level 61, right associativity).

(** [broadcastChannel.onmessage], applied to [event.data]. *)
Definition onmessage (data : JsValue) : Step :=
  if truthy data && truthy (prop "type" data) then
    let type := prop "type" data in
    when (strictEqStr type REQUEST_DATA_EVENT) (total sendCurrentData) ;;
    when (strictEqStr type REQUEST_LOADING_EVENT) (total sendCurrentLoadingState) ;;
    when (strictEqStr type ADD_MORE_DATA_EVENT)
         (fun w => match countArgument (prop "payload" data) with
                   | Some count => Some (handleAddMoreData count w)
                   | None => None
                   end) ;;
    when (strictEqStr type RESET_DATA_EVENT) (total handleResetData)
  else skip.

Definition setActiveListeners (n : Z) (w : World) : World :=
  withThis w {| dataSubscription := dataSubscription (this w);
                loadingSubscription := loadingSubscription (this w);
                errorSubscription := errorSubscription (this w);
                activeListeners := n |}.

Definition activateBroadcasting (w : World) : World * list Effect :=
  let w1 := setActiveListeners (activeListeners (this w) + 1) w in
  if activeListeners (this w1) =? 1 then startBroadcastingStoreUpdates w1
  else (w1, []).

Definition deactivateBroadcasting (w : World) : World * list Effect :=
  let w1 := setActiveListeners (activeListeners (this w) - 1) w in
  if activeListeners (this w1) <=? 0 then
    let (w2, e) := stopBroadcastingStoreUpdates w1 in
    (setActiveListeners 0 w2, e)
  else (w1, []).

(** Broadcasting is on when the subscriptions of
    [startBroadcastingStoreUpdates] are live. *)
Definition broadcasting (b : t) : bool :=
  match dataSubscription b, loadingSubscription b with
  | Some _, Some _ => true
  | _, _ => false
  end.

Inductive Toggle : Type := Activate | Deactivate.

Definition toggle (c : Toggle) (w : World) : World :=
  match c with
  | Activate => fst (activateBroadcasting w)
  | Deactivate => fst (deactivateBroadcasting w)
  end.

Definition toggles (cs : list Toggle) (w : World) : World :=
  fold_left (fun w c => toggle c w) cs w.

End StoreBridgeService.

(** ** The React micro-frontend, receiving half (react-mfe) *)

Module ReactApp.

Definition STORE_EVENTS_DATA : string := "APP_STORE_DATA_UPDATE".
Definition STORE_EVENTS_LOADING : string := "APP_STORE_LOADING_UPDATE".
Definition STORE_EVENTS_REQUEST_DATA : string := "APP_STORE_REQUEST_DATA".
Definition STORE_EVENTS_REQUEST_LOADING : string := "APP_STORE_REQUEST_LOADING".
Definition STORE_EVENTS_ADD_MORE_DATA : string := "APP_STORE_ADD_MORE_DATA".
Definition STORE_EVENTS_RESET_DATA : string := "APP_STORE_RESET_DATA".

(** [this.state]. *)
Record State : Type := {
  data : JsValue;
  loading : JsValue;
  storeAvailable : bool;
  requestAttempted : bool;
  requestTimeout : option Z;
  addItemCount : JsValue
}.

(** The state the constructor sets. *)
Definition initial : State :=
  {| data := JArr [];
     loading := JBool false;
     storeAvailable := false;
     requestAttempted := false;
     requestTimeout := None;
     addItemCount := JNum 3 |}.

(** [a || b]. *)
Definition orElse (a b : JsValue) : JsValue := if truthy a then a else b.

(** [handleBroadcastMessage(event)], applied to [event.data]. *)
Definition handleBroadcastMessage (eventData : JsValue) (state : State) : State :=
  if negb (truthy eventData) || negb (truthy (prop "type" eventData)) then state
  else
    let type := prop "type" eventData in
    let payload := prop "payload" eventData in
    if strictEqStr type STORE_EVENTS_DATA then
      {| data := orElse payload (JArr []);
         loading := loading state;
         storeAvailable := true;
         requestAttempted := requestAttempted state;
         requestTimeout := requestTimeout state;
         addItemCount := addItemCount state |}
    else if strictEqStr type STORE_EVENTS_LOADING then
      {| data := data state;
         loading := payload;
         storeAvailable := storeAvailable state;
         requestAttempted := requestAttempted state;
         requestTimeout := requestTimeout state;
         addItemCount := addItemCount state |}
    else state.

End ReactApp.

(** The types of the message catalogue. *)
Definition catalogue : list string :=
  [ StoreBridgeService.DATA_EVENT;
    StoreBridgeService.LOADING_EVENT;
    StoreBridgeService.REQUEST_DATA_EVENT;
    StoreBridgeService.REQUEST_LOADING_EVENT;
    StoreBridgeService.ADD_MORE_DATA_EVENT;
    StoreBridgeService.RESET_DATA_EVENT ].

(** The payloads posted with type [eventType], oldest first. *)
Definition posted (eventType : string) (effects : list StoreBridgeService.Effect)
  : list JsValue :=
  flat_map (fun e => match e with
                     | StoreBridgeService.PostMessage m =>
                         if strictEqStr (prop "type" m) eventType
                         then [prop "payload" m] else []
                     | _ => []
                     end) effects.

(** A world around a freshly created service. *)
Definition freshWorld (s : AppStore.AppState) (d : DataService.t) : StoreBridgeService.World :=
  {| StoreBridgeService.store := s;
     StoreBridgeService.dataService := d;
     StoreBridgeService.this := StoreBridgeService.created |}.

(** The comparator of the data subscription on two item lists. *)
Definition sameItems (prev curr : list JsValue) : bool :=
  JSON.sameText (JArr prev) (JArr curr).

(** The counter is not negative and tells whether broadcasting is on. *)
Definition counted (w : StoreBridgeService.World) : Prop :=
  0 <= StoreBridgeService.activeListeners (StoreBridgeService.this w)
  /\ StoreBridgeService.broadcasting (StoreBridgeService.this w)
     = (0 <? StoreBridgeService.activeListeners (StoreBridgeService.this w)).

(** Both subscriptions are live, and what they emitted last agrees with the
    state of the store. *)
Definition live (w : StoreBridgeService.World)
           (lastData : list JsValue) (lastLoading : bool) : Prop :=
  StoreBridgeService.dataSubscription (StoreBridgeService.this w)
  = Some {| StoreBridgeService.lastEmitted := lastData |}
  /\ StoreBridgeService.loadingSubscription (StoreBridgeService.this w)
     = Some {| StoreBridgeService.lastEmitted := lastLoading |}
  /\ sameItems lastData (AppStore.selectAppData (StoreBridgeService.store w)) = true
  /\ lastLoading = AppStore.selectAppLoading (StoreBridgeService.store w).

(** ** rxjs operators of the effect *)

(** [pipe(map(f))]. *)
Fixpoint rx_map {A B : Type} (f : A -> B) (source : Observable A) : Observable B :=
  match source with
  | [] => []
  | Next value :: rest => Next (f value) :: rx_map f rest
  | Error message :: _ => [Error message]
  | Complete :: _ => [Complete]
  end.

(** [pipe(catchError(selector))]: the source up to its error, then the
    observable the selector returns for it. *)
Fixpoint catchError {A : Type} (selector : string -> Observable A)
         (source : Observable A) : Observable A :=
  match source with
  | [] => []
  | Next value :: rest => Next value :: catchError selector rest
  | Error message :: _ => selector message
  | Complete :: _ => [Complete]
  end.

(** The values a subscriber is handed. *)
Definition emitted {A : Type} (source : Observable A) : list A :=
  subscribe source {| next := fun value => [value]; error := fun _ => [] |}.

(** ** AppEffects (store/app-state/effects/app.effects.ts) *)

Module AppEffects.

(** [loadApp$] over the [getSampleData] of an injected provider: the actions
    the effect hands back to the store for [action], and the provider after
    the call.  [ofType(loadApp)] lets no other action in.  The inner
    observable is the one of the latest [loadApp]; [switchMap] would drop it
    if another [loadApp] came before its delivery. *)
Definition loadAppWith (getSampleData : StoreBridgeService.ProviderMethod unit)
           (action : AppStore.Action) (d : DataService.t)
  : list AppStore.Action * DataService.t :=
  match action with
  | AppStore.loadApp =>
      let (source, d') := getSampleData tt d in
      (emitted
         (catchError (fun message => rx_of (AppStore.loadAppFailure message))
            (rx_map (fun data => AppStore.loadAppSuccess (map itemValue data)) source)),
       d')
  | _ => ([], d)
  end.

Definition loadApp_effect
  : AppStore.Action -> DataService.t -> list AppStore.Action * DataService.t :=
  loadAppWith (fun _ => DataService.getSampleData).

End AppEffects.

(** ** AppComponent (app.component.ts) *)

Module AppComponent.

Record NewItem : Type := { name : string; description : string }.

(** The fields of the component the methods use. *)
Record t : Type := { newItem : NewItem }.

(** The component with the store, the provider and the bridge injected. *)
Record Container : Type := {
  component : t;
  services : StoreBridgeService.World
}.

(** Work that is done after a simulated delay. *)
Inductive Task : Type :=
| Reload              (* data => { this.store.dispatch(loadApp()) } *)
| ReloadAndResetForm  (* the same, then this.newItem = { name: '', description: '' } *)
| EffectAction (action : AppStore.Action).  (* an action [loadApp$] emits *)

Definition Outcome : Type := Container * list StoreBridgeService.Effect * list Task.

Definition withServices (c : Container) (w : StoreBridgeService.World) : Container :=
  {| component := component c; services := w |}.

(** [store.dispatch(action)]: the reducer runs, the store publishes the new
    state to its subscribers (here the bridge), then the effect sees the
    action; what the effect emits arrives after the delay of the provider. *)
Definition dispatch (action : AppStore.Action) (c : Container) : Outcome :=
  let w := services c in
  let (w1, e) := StoreBridgeService.storeNext
                   (AppStore.appReducer (StoreBridgeService.store w) action) w in
  let (later, d) := AppEffects.loadApp_effect action (StoreBridgeService.dataService w1) in
  (withServices c (StoreBridgeService.withDataService w1 d),
   StoreBridgeService.StoreDispatch action :: e,
   map EffectAction later).

Definition ngOnInit (c : Container) : Outcome :=
  let '(c1, e1, later) := dispatch AppStore.loadApp c in
  let (w2, e2) := StoreBridgeService.startBroadcastingStoreUpdates (services c1) in
  (withServices c1 w2, e1 ++ e2, later).

Definition ngOnDestroy (c : Container) : Outcome :=
  let (w, e) := StoreBridgeService.stopBroadcastingStoreUpdates (services c) in
  (withServices c w, e, []).

(** A provider call of the component: the provider changes at once, the
    [subscribe] callback is left for later. *)
Definition callProvider (c : Container)
           (result : Observable (list DataService.DataItem) * DataService.t)
           (callback : Task) : Outcome :=
  let (source, d) := result in
  (withServices c (StoreBridgeService.withDataService (services c) d),
   [],
   subscribe source {| next := fun _ => [callback]; error := fun _ => [] |}).

Definition addCustomData (c : Container) : Outcome :=
  let customItem := newItem (component c) in
  callProvider c
    (DataService.addCustomItem (name customItem) (description customItem)
       (StoreBridgeService.dataService (services c)))
    ReloadAndResetForm.

Definition addMoreData (count : Z) (c : Container) : Outcome :=
  callProvider c
    (DataService.addMoreData (Some count) (StoreBridgeService.dataService (services c)))
    Reload.

Definition resetData (c : Container) : Outcome :=
  callProvider c
    (DataService.resetData (StoreBridgeService.dataService (services c)))
    Reload.

Definition run (task : Task) (c : Container) : Outcome :=
  match task with
  | Reload => dispatch AppStore.loadApp c
  | ReloadAndResetForm =>
      let '(c1, e, later) := dispatch AppStore.loadApp c in
      ({| component := {| newItem := {| name := EmptyString; description := EmptyString |} |};
          services := services c1 |}, e, later)
  | EffectAction action => dispatch action c
  end.

(** The oldest task left is run. *)
Definition step (o : Outcome) : Outcome :=
  match o with
  | (c, e, []) => (c, e, [])
  | (c, e, task :: tasks) =>
      let '(c1, e1, later) := run task c in
      (c1, e ++ e1, tasks ++ later)
  end.

(** A method of the component and the two delayed steps it leaves: the
    callback, then the action of the effect. *)
Definition completed (o : Outcome) : Outcome := step (step o).

(** A new component around a new bridge. *)
Definition created (s : AppStore.AppState) (d : DataService.t) : Container :=
  {| component := {| newItem := {| name := EmptyString; description := EmptyString |} |};
     services := freshWorld s d |}.

End AppComponent.

(** ** ECMAScript built-ins of the React component *)

(** ToString, for a value that is a primitive, an array or an object without
    a [toString] of its own. *)
Fixpoint jsToString (v : JsValue) : string :=
  match v with
  | JUndefined => "undefined"
  | JNull => "null"
  | JBool true => "true"
  | JBool false => "false"
  | JNum n => numToString n
  | JStr s => s
  | JArr elements =>
      JSON.join "," (map (fun e => match e with
                                   | JUndefined | JNull => EmptyString
                                   | _ => jsToString e
                                   end) elements)
  | JObj _ => "[object Object]"
  end.

(** White space and line terminators among the code units below 256. *)
Definition isWhiteSpace (c : ascii) : bool :=
  let n := nat_of_ascii c in
  ((9 <=? n)%nat && (n <=? 13)%nat) || (n =? 32)%nat || (n =? 160)%nat.

Fixpoint trimStart (s : string) : string :=
  match s with
  | String c rest => if isWhiteSpace c then trimStart rest else s
  | EmptyString => s
  end.

(** [\d]. *)
Definition isDigit (c : ascii) : bool :=
  let n := nat_of_ascii c in (48 <=? n)%nat && (n <=? 57)%nat.

Definition digitValue (c : ascii) : Z := Z.of_nat (nat_of_ascii c - 48).

(** The number the longest prefix of decimal digits denotes; [acc] is the
    number read so far, [None] when no digit was read. *)
Fixpoint digitsPrefix (acc : option Z) (s : string) : option Z :=
  match s with
  | String c rest =>
      if isDigit c
      then digitsPrefix (Some (10 * match acc with Some n => n | None => 0 end
                               + digitValue c)) rest
      else acc
  | EmptyString => acc
  end.

(** [parseInt(s, 10)] for a string; [None] is NaN. *)
Definition parseInt10 (s : string) : option Z :=
  match trimStart s with
  | String c rest =>
      if (nat_of_ascii c =? 45)%nat then option_map Z.opp (digitsPrefix None rest)
      else if (nat_of_ascii c =? 43)%nat then digitsPrefix None rest
      else digitsPrefix None (String c rest)
  | EmptyString => None
  end.

(** [/^\d+$/.test(s)]. *)
Fixpoint allDigits (s : string) : bool :=
  match s with
  | EmptyString => true
  | String c rest => isDigit c && allDigits rest
  end.

Definition digitsOnly (s : string) : bool :=
  match s with
  | EmptyString => false
  | String _ _ => allDigits s
  end.

(** ** The React micro-frontend, requesting half and life cycle *)

Module ReactRequests.

(** What the component does to the browser. *)
Inductive Effect : Type :=
| PostMessage (message : JsValue)  (* this.broadcastChannel.postMessage *)
| SetTimeout (ms : Z)              (* setTimeout(callback, ms) *)
| ClearTimeout (handle : Z)        (* clearTimeout(handle) *)
| Close.                           (* this.broadcastChannel.close() *)

Definition setRequestAttempted (state : ReactApp.State) : ReactApp.State :=
  {| ReactApp.data := ReactApp.data state;
     ReactApp.loading := ReactApp.loading state;
     ReactApp.storeAvailable := ReactApp.storeAvailable state;
     ReactApp.requestAttempted := true;
     ReactApp.requestTimeout := ReactApp.requestTimeout state;
     ReactApp.addItemCount := ReactApp.addItemCount state |}.

Definition setLoadingTrue (state : ReactApp.State) : ReactApp.State :=
  {| ReactApp.data := ReactApp.data state;
     ReactApp.loading := JBool true;
     ReactApp.storeAvailable := ReactApp.storeAvailable state;
     ReactApp.requestAttempted := ReactApp.requestAttempted state;
     ReactApp.requestTimeout := ReactApp.requestTimeout state;
     ReactApp.addItemCount := ReactApp.addItemCount state |}.

Definition requestCurrentData (state : ReactApp.State) : ReactApp.State * list Effect :=
  (setRequestAttempted state,
   [ PostMessage (JObj [("type", JStr ReactApp.STORE_EVENTS_REQUEST_DATA)]);
     PostMessage (JObj [("type", JStr ReactApp.STORE_EVENTS_REQUEST_LOADING)]) ]).

(** [componentDidMount()]; [handle] is what [setTimeout] returns. *)
Definition componentDidMount (handle : Z) (state : ReactApp.State)
  : ReactApp.State * list Effect :=
  let state1 :=
    {| ReactApp.data := JArr [];
       ReactApp.loading := JBool false;
       ReactApp.storeAvailable := false;
       ReactApp.requestAttempted := ReactApp.requestAttempted state;
       ReactApp.requestTimeout := ReactApp.requestTimeout state;
       ReactApp.addItemCount := ReactApp.addItemCount state |} in
  let (state2, e) := requestCurrentData state1 in
  ({| ReactApp.data := ReactApp.data state2;
      ReactApp.loading := ReactApp.loading state2;
      ReactApp.storeAvailable := ReactApp.storeAvailable state2;
      ReactApp.requestAttempted := ReactApp.requestAttempted state2;
      ReactApp.requestTimeout := Some handle;
      ReactApp.addItemCount := ReactApp.addItemCount state2 |},
   e ++ [SetTimeout 2000]).

(** The callback given to [setTimeout]. *)
Definition requestTimedOut (state : ReactApp.State) : ReactApp.State :=
  if negb (ReactApp.storeAvailable state) then setRequestAttempted state else state.

Definition componentWillUnmount (state : ReactApp.State) : ReactApp.State * list Effect :=
  (state,
   match ReactApp.requestTimeout state with
   | Some handle => if handle =? 0 then [] else [ClearTimeout handle]
   | None => []
   end ++ [Close]).

(** [handleAddItemCountChange(event)], applied to [event.target.value]. *)
Definition handleAddItemCountChange (value : string) (state : ReactApp.State)
  : ReactApp.State :=
  if (value =? EmptyString)%string || digitsOnly value then
    {| ReactApp.data := ReactApp.data state;
       ReactApp.loading := ReactApp.loading state;
       ReactApp.storeAvailable := ReactApp.storeAvailable state;
       ReactApp.requestAttempted := ReactApp.requestAttempted state;
       ReactApp.requestTimeout := ReactApp.requestTimeout state;
       ReactApp.addItemCount := JStr value |}
  else state.

(** [parseInt(this.state.addItemCount, 10) || 1]. *)
Definition requestedCount (state : ReactApp.State) : Z :=
  match parseInt10 (jsToString (ReactApp.addItemCount state)) with
  | Some n => if n =? 0 then 1 else n
  | None => 1
  end.

Definition requestMoreData (state : ReactApp.State) : ReactApp.State * list Effect :=
  let count := requestedCount state in
  (setLoadingTrue state,
   [ PostMessage (JObj [ ("type", JStr ReactApp.STORE_EVENTS_ADD_MORE_DATA);
                         ("payload", JNum count) ]) ]).

Definition requestResetData (state : ReactApp.State) : ReactApp.State * list Effect :=
  (setLoadingTrue state,
   [ PostMessage (JObj [("type", JStr ReactApp.STORE_EVENTS_RESET_DATA)]) ]).

Definition retryRequestData (state : ReactApp.State) : ReactApp.State * list Effect :=
  requestCurrentData state.

(** What can happen to a mounted component. *)
Inductive Event : Type :=
| Mounted (handle : Z)
| Received (eventData : JsValue)
| TimedOut
| CountTyped (value : string)
| MoreClicked
| ResetClicked
| RetryClicked.

Definition handle (event : Event) (state : ReactApp.State) : ReactApp.State * list Effect :=
  match event with
  | Mounted h => componentDidMount h state
  | Received eventData => (ReactApp.handleBroadcastMessage eventData state, [])
  | TimedOut => (requestTimedOut state, [])
  | CountTyped value => (handleAddItemCountChange value state, [])
  | MoreClicked => requestMoreData state
  | ResetClicked => requestResetData state
  | RetryClicked => retryRequestData state
  end.

(** The component after a list of events, oldest first, and all it posted. *)
Fixpoint handleAll (events : list Event) (state : ReactApp.State)
  : ReactApp.State * list Effect :=
  match events with
  | [] => (state, [])
  | event :: rest =>
      let (state1, e1) := handle event state in
      let (state2, e2) := handleAll rest state1 in
      (state2, e1 ++ e2)
  end.

End ReactRequests.

(** ** The channel between the two *)

(** The messages of the React component reach the bridge in the order they
    were posted. *)
Fixpoint toBridge (effects : list ReactRequests.Effect) : StoreBridgeService.Step :=
  match effects with
  | [] => StoreBridgeService.skip
  | ReactRequests.PostMessage m :: rest =>
      StoreBridgeService.andThen (StoreBridgeService.onmessage m) (toBridge rest)
  | _ :: rest => toBridge rest
  end.

(** The messages of the bridge reach the React component in the order they
    were posted. *)
Fixpoint toReact (effects : list StoreBridgeService.Effect) (state : ReactApp.State)
  : ReactApp.State :=
  match effects with
  | [] => state
  | StoreBridgeService.PostMessage m :: rest =>
      toReact rest (ReactApp.handleBroadcastMessage m state)
  | _ :: rest => toReact rest state
  end.

(** ** Vocabulary of the further properties *)

(** A call that puts a name of the user into the list. *)
Definition isCustom (c : DataService.Call) : bool :=
  match c with
  | DataService.CallAddCustomItem _ _ => true
  | _ => false
  end.









Definition isMounted (event : ReactRequests.Event) : bool :=
  match event with
  | ReactRequests.Mounted _ => true
  | _ => false
  end.

(** Reading back one code unit of a JSON string literal: the inverse of
    [JSON.quoteChar] at the front of a text. *)
Definition hexValue (c : ascii) : nat :=
  let n := nat_of_ascii c in
  if (48 <=? n)%nat && (n <=? 57)%nat then (n - 48)%nat else (n - 87)%nat.

Definition unquoteChar (text : string) : option (ascii * string) :=
  match text with
  | EmptyString => None
  | String c rest =>
      if (nat_of_ascii c =? 92)%nat then
        match rest with
        | EmptyString => None
        | String e rest' =>
            let k := nat_of_ascii e in
            if (k =? 98)%nat then Some (ascii_of_nat 8, rest')
            else if (k =? 116)%nat then Some (ascii_of_nat 9, rest')
            else if (k =? 110)%nat then Some (ascii_of_nat 10, rest')
            else if (k =? 102)%nat then Some (ascii_of_nat 12, rest')
            else if (k =? 114)%nat then Some (ascii_of_nat 13, rest')
            else if (k =? 34)%nat then Some (ascii_of_nat 34, rest')
            else if (k =? 92)%nat then Some (ascii_of_nat 92, rest')
            else match rest' with
                 | String _ (String _ (String h1 (String h2 rest''))) =>
                     Some (ascii_of_nat (16 * hexValue h1 + hexValue h2), rest'')
                 | _ => None
                 end
        end
      else Some (c, rest)
  end.

(** The code unit [t] does not occur in [s]. *)
Fixpoint lacks (t : ascii) (s : string) : bool :=
  match s with
  | EmptyString => true
  | String c rest => negb (Ascii.eqb c t) && lacks t rest
  end.

(** The JSON text of an item of the provider. *)
Definition itemText (item : DataService.DataItem) : string :=
  ("{" ++ JSON.quote "id" ++ ":" ++ numToString (DataService.id item)
   ++ "," ++ JSON.quote "name" ++ ":" ++ JSON.quote (DataService.name item)
   ++ "," ++ JSON.quote "description" ++ ":" ++ JSON.quote (DataService.description item)
   ++ "}")%string.

(** * Properties *)

(** ** DataService: the list of ids *)

Section DataServiceFacts.

Import DataService.

Lemma generated_ids_from (base n lo : nat) :
  map (fun index => Z.of_nat base + Z.of_nat index + 1) (seq lo n)
  = map Z.of_nat (seq (S base + lo) n).
Proof.
  revert lo.
  induction n as [|n IH]; intros lo; simpl; [reflexivity|].
  f_equal; [lia|].
  rewrite IH. do 2 f_equal. lia.
Qed.

Lemma ids_app (l1 l2 : list DataItem) :
  ids {| sampleData := l1 ++ l2 |} = ids {| sampleData := l1 |} ++ map id l2.
Proof. unfold ids; simpl. apply map_app. Qed.

Lemma addMoreData_sampleData (count : option Z) (s : t) :
  sampleData (snd (addMoreData count s))
  = sampleData s
    ++ map (fun index => generated (Z.of_nat (List.length (sampleData s)) + Z.of_nat index + 1))
           (seq 0 (Z.to_nat (defaultArg 5 count))).
Proof. reflexivity. Qed.

Lemma addMoreData_contiguous (count : option Z) (s : t) :
  contiguous s -> contiguous (snd (addMoreData count s)).
Proof.
  unfold contiguous, ids. intros H.
  rewrite addMoreData_sampleData, map_app, length_app, seq_app, map_app, H.
  f_equal.
  rewrite !length_map, length_seq, map_map. simpl id.
  rewrite generated_ids_from. do 2 f_equal. lia.
Qed.

Lemma addCustomItem_contiguous (n d : string) (s : t) :
  contiguous s -> contiguous (snd (addCustomItem n d s)).
Proof.
  unfold contiguous, ids. intros H. simpl.
  rewrite map_app, length_app, seq_app, map_app, H. simpl.
  do 3 f_equal. lia.
Qed.

Lemma baseline_contiguous : contiguous {| sampleData := baseline |}.
Proof. reflexivity. Qed.

Lemma call_contiguous (c : Call) (s : t) :
  contiguous s -> contiguous (snd (call c s)).
Proof.
  destruct c; simpl.
  - trivial.
  - apply addCustomItem_contiguous.
  - apply addMoreData_contiguous.
  - intros _. apply baseline_contiguous.
Qed.

Lemma after_contiguous (history : list Call) (s : t) :
  contiguous s -> contiguous (after history s).
Proof.
  revert s. induction history as [|c history IH]; intros s H; simpl; [exact H|].
  apply IH, call_contiguous, H.
Qed.

Lemma max_of_seq (n lo : nat) :
  fold_right Z.max 0 (map Z.of_nat (seq lo (S n))) = Z.of_nat (lo + n).
Proof.
  revert lo. induction n as [|n IH]; intros lo.
  - simpl. lia.
  - rewrite <- cons_seq, map_cons.
    cbn [fold_right]. rewrite IH. lia.
Qed.

Lemma contiguous_maxId (s : t) :
  contiguous s -> maxId s = Z.of_nat (List.length (sampleData s)).
Proof.
  unfold contiguous, maxId. intros ->.
  destruct (List.length (sampleData s)) as [|n]; [reflexivity|].
  rewrite max_of_seq. lia.
Qed.

Lemma contiguous_NoDup (s : t) : contiguous s -> NoDup (ids s).
Proof.
  unfold contiguous. intros ->.
  apply Finite.Injective_map_NoDup; [|apply seq_NoDup].
  intros a b. apply Nat2Z.inj.
Qed.

End DataServiceFacts.

(** C10.  Starting from the initial 7-item list, after any history of
    [getSampleData], [addCustomItem], [addMoreData] and [resetData] calls the
    ids of the list are exactly 1, 2, ..., length in this order; so they are
    unique, the largest id is the length, and the length-based ids that
    [addCustomItem] and [addMoreData] hand out are the ids that continue from
    the current maximum. *)
Theorem C10_ids_are_one_to_length (history : list DataService.Call) :
  let s := DataService.after history DataService.initial in
  let n := List.length (DataService.sampleData s) in
  DataService.ids s = map Z.of_nat (seq 1 n)
  /\ NoDup (DataService.ids s)
  /\ DataService.maxId s = Z.of_nat n
  /\ (forall item_name item_description,
         DataService.ids (snd (DataService.addCustomItem item_name item_description s))
         = DataService.ids s ++ [DataService.maxId s + 1])
  /\ (forall count,
         DataService.ids (snd (DataService.addMoreData count s))
         = DataService.ids s
           ++ map (fun index => DataService.maxId s + Z.of_nat index + 1)
                  (seq 0 (Z.to_nat (DataService.defaultArg 5 count)))).
Proof.
  intros s n.
  assert (Hc : DataService.contiguous s)
    by (apply after_contiguous, baseline_contiguous).
  pose proof (contiguous_maxId Hc) as Hmax. fold n in Hmax.
  repeat split.
  - exact Hc.
  - apply contiguous_NoDup, Hc.
  - exact Hmax.
  - intros item_name item_description.
    unfold DataService.addCustomItem. cbn [snd].
    rewrite ids_app. cbn [map DataService.id]. fold n. now rewrite Hmax.
  - intros count.
    rewrite Hmax. unfold DataService.ids at 1.
    rewrite addMoreData_sampleData, map_app, map_map. reflexivity.
Qed.



(** C5.  From every state [resetData()] leaves the service with, and
    delivers, the fixed baseline of 7 items with ids 1..7, whatever was added
    before; running it a second time gives the same state and the same
    result. *)
Theorem C5_resetData_restores_baseline (s : DataService.t) :
  DataService.resetData s = (rx_of DataService.baseline, DataService.initial)
  /\ List.length DataService.baseline = 7%nat
  /\ map DataService.id DataService.baseline = [1; 2; 3; 4; 5; 6; 7]
  /\ DataService.baseline = map DataService.generated [1; 2; 3; 4; 5; 6; 7]
  /\ DataService.resetData (snd (DataService.resetData s)) = DataService.resetData s
  /\ (forall history,
        DataService.resetData (DataService.after history DataService.initial)
        = (rx_of DataService.baseline, DataService.initial)).
Proof. repeat split. Qed.

(** C8, as the code has it.  [getSampleData()] delivers a copy of the list
    the service holds at the time of the call and leaves the service as it
    is; that list is the 7-item baseline with ids 1..7 in the initial state
    and after a [resetData()], and after [addMoreData(count)] it is that list
    with the generated items appended. *)
Theorem C8_getSampleData_returns_current_list (s : DataService.t) :
  DataService.getSampleData s = (rx_of (DataService.sampleData s), s)
  /\ DataService.getSampleData DataService.initial
     = (rx_of DataService.baseline, DataService.initial)
  /\ fst (DataService.getSampleData (snd (DataService.resetData s)))
     = rx_of DataService.baseline
  /\ List.length DataService.baseline = 7%nat
  /\ map DataService.id DataService.baseline = [1; 2; 3; 4; 5; 6; 7]
  /\ (forall count,
        fst (DataService.getSampleData (snd (DataService.addMoreData count s)))
        = fst (DataService.addMoreData count s)).
Proof. repeat split. Qed.

(** C8 fails as stated: after one item was added, [getSampleData()] delivers
    8 items, not the baseline. *)
Lemma C8_counterexample :
  fst (DataService.getSampleData
         (snd (DataService.addMoreData (Some 1) DataService.initial)))
  = rx_of (DataService.baseline ++ [DataService.generated 8])
  /\ fst (DataService.getSampleData
            (snd (DataService.addMoreData (Some 1) DataService.initial)))
     <> rx_of DataService.baseline.
Proof. split; [reflexivity | discriminate]. Qed.

(** ** StoreBridgeService: the activation counter *)

Section ActivationFacts.

Import StoreBridgeService.

Lemma counted_created (s : AppStore.AppState) (d : DataService.t) :
  counted (freshWorld s d).
Proof. split; [simpl; lia | reflexivity]. Qed.

Lemma counted_toggle (c : Toggle) (w : World) : counted w -> counted (toggle c w).
Proof.
  unfold counted. intros [Hge Hb]. destruct w as [s d [ds ls es n]].
  unfold broadcasting in *. cbn in Hge, Hb.
  destruct c; unfold toggle, activateBroadcasting, deactivateBroadcasting; cbn.
  - destruct (Z.eqb_spec (n + 1) 1) as [E|E]; cbn.
    + rewrite E. split; [lia | reflexivity].
    + split; [lia|]. rewrite Hb.
      destruct (Z.ltb_spec 0 n), (Z.ltb_spec 0 (n + 1)); trivial; lia.
  - destruct (Z.leb_spec (n - 1) 0) as [E|E]; cbn.
    + split; [lia | reflexivity].
    + split; [lia|]. rewrite Hb.
      destruct (Z.ltb_spec 0 n), (Z.ltb_spec 0 (n - 1)); trivial; lia.
Qed.

Lemma counted_toggles (cs : list Toggle) (w : World) :
  counted w -> counted (toggles cs w).
Proof.
  revert w. induction cs as [|c cs IH]; intros w H; simpl; [exact H|].
  apply IH, counted_toggle, H.
Qed.

End ActivationFacts.

(** C3.  [activateBroadcasting()] adds 1 to the count and, when the count
    was 0, starts broadcasting; [deactivateBroadcasting()] subtracts 1 with 0
    as floor and, when the count becomes 0, stops broadcasting.  After any
    sequence of the two calls on a new service the count is not negative and
    broadcasting is on exactly when the count is positive.  Three activations
    and two deactivations leave broadcasting on; one more deactivation stops
    it. *)
Theorem C3_activation_count (w : StoreBridgeService.World)
        (s : AppStore.AppState) (d : DataService.t)
        (cs : list StoreBridgeService.Toggle) :
  let count := fun w => StoreBridgeService.activeListeners (StoreBridgeService.this w) in
  let on := fun w => StoreBridgeService.broadcasting (StoreBridgeService.this w) in
  let activated := fst (StoreBridgeService.activateBroadcasting w) in
  let deactivated := fst (StoreBridgeService.deactivateBroadcasting w) in
  let zeroed := StoreBridgeService.setActiveListeners 0 w in
  (* activate *)
  count activated = count w + 1
  /\ StoreBridgeService.activateBroadcasting zeroed
     = StoreBridgeService.startBroadcastingStoreUpdates
         (StoreBridgeService.setActiveListeners 1 w)
  /\ on (fst (StoreBridgeService.activateBroadcasting zeroed)) = true
  (* deactivate *)
  /\ count deactivated = Z.max 0 (count w - 1)
  /\ (if count deactivated =? 0 then on deactivated = false
      else StoreBridgeService.dataSubscription (StoreBridgeService.this deactivated)
           = StoreBridgeService.dataSubscription (StoreBridgeService.this w)
           /\ StoreBridgeService.loadingSubscription (StoreBridgeService.this deactivated)
              = StoreBridgeService.loadingSubscription (StoreBridgeService.this w))
  (* any sequence, from a new service *)
  /\ 0 <= count (StoreBridgeService.toggles cs (freshWorld s d))
  /\ on (StoreBridgeService.toggles cs (freshWorld s d))
     = (0 <? count (StoreBridgeService.toggles cs (freshWorld s d)))
  (* the scenario *)
  /\ (let w5 := StoreBridgeService.toggles
                  [ StoreBridgeService.Activate; StoreBridgeService.Activate;
                    StoreBridgeService.Activate; StoreBridgeService.Deactivate;
                    StoreBridgeService.Deactivate ] (freshWorld s d) in
      on w5 = true /\ count w5 = 1
      /\ on (StoreBridgeService.toggle StoreBridgeService.Deactivate w5) = false
      /\ count (StoreBridgeService.toggle StoreBridgeService.Deactivate w5) = 0).
Proof.
  intros count on activated deactivated zeroed.
  assert (Hact : count activated = count w + 1).
  { subst count activated. unfold StoreBridgeService.activateBroadcasting.
    destruct w as [s0 d0 [ds ls es n]]; cbn.
    destruct (n + 1 =? 1); reflexivity. }
  assert (Hdeact : count deactivated = Z.max 0 (count w - 1)
                   /\ (if count deactivated =? 0 then on deactivated = false
      else StoreBridgeService.dataSubscription (StoreBridgeService.this deactivated)
           = StoreBridgeService.dataSubscription (StoreBridgeService.this w)
           /\ StoreBridgeService.loadingSubscription (StoreBridgeService.this deactivated)
              = StoreBridgeService.loadingSubscription (StoreBridgeService.this w))).
  { subst count on deactivated. unfold StoreBridgeService.deactivateBroadcasting.
    destruct w as [s0 d0 [ds ls es n]]; cbn.
    destruct (Z.leb_spec (n - 1) 0) as [E|E]; cbn.
    - split; [lia | reflexivity].
    - split; [lia|]. destruct (Z.eqb_spec (n - 1) 0); [lia | split; reflexivity]. }
  destruct Hdeact as [Hd1 Hd2].
  destruct (counted_toggles cs (counted_created s d)) as [Hge Hon].
  repeat split; try assumption; try reflexivity.
Qed.

(** ** StoreBridgeService: sanitization *)

Section SanitizeFacts.

Import StoreBridgeService.

Lemma sanitizeData_array (items : list JsValue) :
  sanitizeData (JArr items) = JArr (map spread items).
Proof. reflexivity. Qed.

Lemma spread_object (properties : list (string * JsValue)) :
  spread (JObj properties) = JObj properties.
Proof. reflexivity. Qed.

Lemma sanitizeData_objects (objects : list (list (string * JsValue))) :
  sanitizeData (JArr (map JObj objects)) = JArr (map JObj objects).
Proof.
  rewrite sanitizeData_array, map_map. f_equal.
Qed.

Lemma sanitizeData_items (items : list DataService.DataItem) :
  sanitizeData (itemsValue items) = itemsValue items.
Proof.
  unfold itemsValue. rewrite sanitizeData_array, map_map. f_equal.
Qed.

(** A message whose [type] is a string is an object, hence truthy. *)
Lemma typed_message_truthy (data : JsValue) (eventType : string) :
  prop "type" data = JStr eventType -> truthy data = true.
Proof. destruct data; simpl; intros H; try discriminate; reflexivity. Qed.

End SanitizeFacts.



(** C1, as the code has it.  The payload of the [APP_STORE_DATA_UPDATE]
    message answering [APP_STORE_REQUEST_DATA], and of the one posted for a
    broadcast of the item list, is [sanitizeData] of the list: a new array
    whose items are copies [{...item}] of the items.  The copy of an object
    has all the properties of the object, with their values, and no others;
    no field is removed.  An item with only [id], [name] and [description],
    as the DataService makes them, is copied with exactly these three. *)
Theorem C1_sanitize_copies_every_field (data : JsValue) (w : StoreBridgeService.World)
        (state : AppStore.AppState) :
  prop "type" data = JStr StoreBridgeService.REQUEST_DATA_EVENT ->
  let payloadOf := fun items => JArr (map StoreBridgeService.spread items) in
  (* the request *)
  posted StoreBridgeService.DATA_EVENT
    match StoreBridgeService.onmessage data w with
    | Some (_, effects) => effects
    | None => []
    end
  = [payloadOf (AppStore.selectAppData (StoreBridgeService.store w))]
  (* the broadcasts: on subscription, and for a change of the store *)
  /\ posted StoreBridgeService.DATA_EVENT
       (snd (StoreBridgeService.startBroadcastingStoreUpdates w))
     = [payloadOf (AppStore.selectAppData (StoreBridgeService.store w))]
  /\ (posted StoreBridgeService.DATA_EVENT
        (snd (StoreBridgeService.dataNext state (StoreBridgeService.this w)))
      = [payloadOf (AppStore.selectAppData state)]
      \/ posted StoreBridgeService.DATA_EVENT
           (snd (StoreBridgeService.dataNext state (StoreBridgeService.this w)))
         = [])
  (* the copy *)
  /\ (forall properties key,
        StoreBridgeService.spread (JObj properties) = JObj properties
        /\ hasField key (StoreBridgeService.spread (JObj properties))
           = hasField key (JObj properties)
        /\ prop key (StoreBridgeService.spread (JObj properties))
           = prop key (JObj properties))
  /\ (forall items,
        payloadOf (map itemValue items) = itemsValue items
        /\ Forall (fun v => keys v = ["id"; "name"; "description"])
                  (map StoreBridgeService.spread (map itemValue items))).
Proof.
  intros Htype payloadOf. repeat split.
  - unfold StoreBridgeService.onmessage.
    rewrite (typed_message_truthy data Htype), Htype. reflexivity.
  - unfold StoreBridgeService.dataNext.
    destruct (StoreBridgeService.dataSubscription (StoreBridgeService.this w));
      [|right; reflexivity].
    destruct (JSON.sameText _ _); [right | left]; reflexivity.
  - subst payloadOf. cbv beta. rewrite map_map. reflexivity.
  - rewrite map_map. apply Forall_forall. intros v Hin.
    apply in_map_iff in Hin. destruct Hin as [item [<- _]]. reflexivity.
Qed.

Lemma C1_witness :
  prop "type" (JObj [("type", JStr "APP_STORE_REQUEST_DATA")])
  = JStr StoreBridgeService.REQUEST_DATA_EVENT
  /\ posted StoreBridgeService.DATA_EVENT
       (snd (StoreBridgeService.startBroadcastingStoreUpdates
               (freshWorld AppStore.initialAppState DataService.initial)))
     = [JArr []].
Proof.
  split; [reflexivity|].
  apply (C1_sanitize_copies_every_field
           (JObj [("type", JStr "APP_STORE_REQUEST_DATA")])
           (freshWorld AppStore.initialAppState DataService.initial)
           AppStore.initialAppState).
  reflexivity.
Defined.

(** C1 fails as stated: an item of the store with a fourth field, [token],
    is sent to the requester with that field. *)
Lemma C1_counterexample :
  let item :=
    JObj [ ("id", JNum 1); ("name", JStr "Item 1");
           ("description", JStr "Description for item 1");
           ("token", JStr "secret") ] in
  let w :=
    freshWorld (AppStore.appReducer AppStore.initialAppState
                  (AppStore.loadAppSuccess [item]))
               DataService.initial in
  StoreBridgeService.onmessage (JObj [("type", JStr "APP_STORE_REQUEST_DATA")]) w
  = Some (w, [ StoreBridgeService.StoreSelect AppStore.SelectAppData;
               StoreBridgeService.PostMessage
                 (JObj [ ("type", JStr "APP_STORE_DATA_UPDATE");
                         ("payload", JArr [item]) ]) ])
  /\ hasField "token" item = true
  /\ keys item <> ["id"; "name"; "description"].
Proof. repeat split. discriminate. Qed.

(** ** StoreBridgeService: requests that change the data *)

Section RequestFacts.

Import StoreBridgeService.



End RequestFacts.



(** The scenario of the React component asking for 3 more items of a new
    provider: the list posted has the ids 1..10, and the loading flag
    follows. *)
Example add_three_to_baseline :
  StoreBridgeService.onmessage
    (JObj [("type", JStr "APP_STORE_ADD_MORE_DATA"); ("payload", JNum 3)])
    (freshWorld AppStore.initialAppState DataService.initial)
  = Some (freshWorld AppStore.initialAppState
            {| DataService.sampleData :=
                 map DataService.generated [1; 2; 3; 4; 5; 6; 7; 8; 9; 10] |},
          [ StoreBridgeService.ProviderCall (DataService.CallAddMoreData (Some 3));
            StoreBridgeService.PostMessage
              (StoreBridgeService.message "APP_STORE_DATA_UPDATE"
                 (itemsValue (map DataService.generated [1; 2; 3; 4; 5; 6; 7; 8; 9; 10])));
            StoreBridgeService.PostMessage
              (StoreBridgeService.message "APP_STORE_LOADING_UPDATE" (JBool false)) ]).
Proof. reflexivity. Qed.


(** ** Messages that are not requests *)

(** C9.  A message without a [type] (or with an empty one), and a message
    whose [type] is none of the six of the catalogue, is ignored on both
    sides: the React component keeps its state, [data], [loading] and
    [storeAvailable] included, and the service posts nothing, calls no
    provider method, dispatches nothing and keeps its state. *)
Theorem C9_other_messages_ignored (data : JsValue) (state : ReactApp.State)
        (w : StoreBridgeService.World) :
  truthy (prop "type" data) = false
  \/ (forall t, In t catalogue -> strictEqStr (prop "type" data) t = false) ->
  ReactApp.handleBroadcastMessage data state = state
  /\ StoreBridgeService.onmessage data w = Some (w, []).
Proof.
  intros [Hmissing | Hunknown].
  - unfold ReactApp.handleBroadcastMessage, StoreBridgeService.onmessage.
    rewrite Hmissing, andb_false_r, orb_true_r. split; reflexivity.
  - assert (H : forall t, In t catalogue -> strictEqStr (prop "type" data) t = false)
      by exact Hunknown.
    split.
    + unfold ReactApp.handleBroadcastMessage.
      change ReactApp.STORE_EVENTS_DATA with StoreBridgeService.DATA_EVENT.
      change ReactApp.STORE_EVENTS_LOADING with StoreBridgeService.LOADING_EVENT.
      rewrite (H StoreBridgeService.DATA_EVENT) by (simpl; tauto).
      rewrite (H StoreBridgeService.LOADING_EVENT) by (simpl; tauto).
      destruct (negb (truthy data) || negb (truthy (prop "type" data))); reflexivity.
    + unfold StoreBridgeService.onmessage.
      rewrite (H StoreBridgeService.REQUEST_DATA_EVENT) by (simpl; tauto).
      rewrite (H StoreBridgeService.REQUEST_LOADING_EVENT) by (simpl; tauto).
      rewrite (H StoreBridgeService.ADD_MORE_DATA_EVENT) by (simpl; tauto).
      rewrite (H StoreBridgeService.RESET_DATA_EVENT) by (simpl; tauto).
      destruct (truthy data && truthy (prop "type" data)); reflexivity.
Qed.

Lemma C9_witness :
  (truthy (prop "type" (JObj [("payload", JNum 3)])) = false
   \/ (forall t, In t catalogue ->
         strictEqStr (prop "type" (JObj [("payload", JNum 3)])) t = false))
  /\ ReactApp.handleBroadcastMessage (JObj [("payload", JNum 3)]) ReactApp.initial
     = ReactApp.initial
  /\ StoreBridgeService.onmessage (JObj [("payload", JNum 3)])
       (freshWorld AppStore.initialAppState DataService.initial)
     = Some (freshWorld AppStore.initialAppState DataService.initial, []).
Proof.
  split; [left; reflexivity|].
  apply (C9_other_messages_ignored (JObj [("payload", JNum 3)])).
  left. reflexivity.
Defined.

(** ** StoreBridgeService: broadcasts of store changes *)

Section DistinctFacts.

Variable K : Type.
Variable comparator : K -> K -> bool.
Hypothesis comparator_same : forall value, comparator value value = true.

Lemma comparator_false_neq (a b : K) : comparator a b = false -> a <> b.
Proof. intros H ->. rewrite comparator_same in H. discriminate. Qed.

Lemma distinctAfter_noRepeat (values : list K) (previous : K) :
  noRepeat (previous :: distinctAfter comparator previous values).
Proof.
  revert previous. induction values as [|value rest IH]; intros previous.
  - exact I.
  - cbn [distinctAfter]. destruct (comparator previous value) eqn:E.
    + apply IH.
    + split; [apply comparator_false_neq, E | apply IH].
Qed.

Lemma distinctUntilChanged_noRepeat (values : list K) :
  noRepeat (distinctUntilChanged comparator values).
Proof.
  destruct values as [|value rest]; [exact I | apply distinctAfter_noRepeat].
Qed.

End DistinctFacts.

Section BroadcastFacts.

Import StoreBridgeService.

Lemma sameItems_same (items : list JsValue) : sameItems items items = true.
Proof.
  unfold sameItems, JSON.sameText.
  destruct (JSON.stringify (JArr items)); [apply String.eqb_refl | reflexivity].
Qed.

Local Arguments sameItems : simpl never.

Lemma noRepeat_map_JBool (flags : list bool) :
  noRepeat flags -> noRepeat (map JBool flags).
Proof.
  induction flags as [|a [|b rest] IH]; cbn; trivial.
  intros [Hne H]. split; [congruence | apply IH, H].
Qed.

Lemma posted_app (eventType : string) (e1 e2 : list Effect) :
  posted eventType (e1 ++ e2) = posted eventType e1 ++ posted eventType e2.
Proof. apply flat_map_app. Qed.

Lemma live_start (w : World) :
  live (fst (startBroadcastingStoreUpdates w))
       (AppStore.selectAppData (store w)) (AppStore.selectAppLoading (store w)).
Proof. repeat split. apply sameItems_same. Qed.

Lemma storeNext_live (state : AppStore.AppState) (w : World)
      (lastData : list JsValue) (lastLoading : bool) :
  live w lastData lastLoading ->
  let lastData' := if sameItems lastData (AppStore.selectAppData state)
                   then lastData else AppStore.selectAppData state in
  live (fst (storeNext state w)) lastData' (AppStore.selectAppLoading state)
  /\ posted DATA_EVENT (snd (storeNext state w))
     = map (fun items => sanitizeData (JArr items))
           (distinctAfter sameItems lastData [AppStore.selectAppData state])
  /\ posted LOADING_EVENT (snd (storeNext state w))
     = map JBool (distinctAfter Bool.eqb lastLoading [AppStore.selectAppLoading state]).
Proof.
  intros (Hd & Hl & Hsame & Hload).
  destruct w as [s d [ds ls es n]]. cbn in Hd, Hl. subst ds ls.
  unfold storeNext, dataNext, loadingNext.
  cbn [this store dataSubscription loadingSubscription lastEmitted distinctAfter].
  fold (sameItems lastData (AppStore.selectAppData state)).
  destruct (sameItems lastData (AppStore.selectAppData state)) eqn:Ed;
    cbn [this store dataSubscription loadingSubscription lastEmitted];
    destruct (Bool.eqb lastLoading (AppStore.selectAppLoading state)) eqn:El;
    try (apply eqb_prop in El; subst lastLoading);
    unfold live; cbn; repeat split; auto using sameItems_same.
Qed.

Lemma storeRun_live (states : list AppStore.AppState) (w : World)
      (lastData : list JsValue) (lastLoading : bool) :
  live w lastData lastLoading ->
  (exists lastData' lastLoading', live (fst (storeRun states w)) lastData' lastLoading')
  /\ posted DATA_EVENT (snd (storeRun states w))
     = map (fun items => sanitizeData (JArr items))
           (distinctAfter sameItems lastData (map AppStore.selectAppData states))
  /\ posted LOADING_EVENT (snd (storeRun states w))
     = map JBool (distinctAfter Bool.eqb lastLoading (map AppStore.selectAppLoading states)).
Proof.
  revert w lastData lastLoading.
  induction states as [|state rest IH]; intros w lastData lastLoading Hlive.
  - cbn. split; [eauto | split; reflexivity].
  - destruct (storeNext_live state Hlive) as (Hlive1 & Hd1 & Hl1).
    cbn [storeRun distinctAfter map].
    destruct (storeNext state w) as [w1 e1] eqn:E1. cbn [fst snd] in *.
    specialize (IH w1 _ _ Hlive1). destruct IH as (Hex & Hd & Hl).
    destruct (storeRun rest w1) as [w2 e2]. cbn [fst snd] in *.
    split; [exact Hex|].
    rewrite !posted_app, Hd, Hl, Hd1, Hl1. cbn [distinctAfter].
    split.
    + destruct (sameItems lastData (AppStore.selectAppData state)); reflexivity.
    + destruct (Bool.eqb lastLoading (AppStore.selectAppLoading state)) eqn:Eb.
      * apply eqb_prop in Eb. rewrite Eb. reflexivity.
      * reflexivity.
Qed.

Lemma storeNext_same_data (state : AppStore.AppState) (w : World)
      (lastData : list JsValue) (lastLoading : bool) :
  live w lastData lastLoading ->
  AppStore.selectAppData state = AppStore.selectAppData (store w) ->
  posted DATA_EVENT (snd (storeNext state w)) = [].
Proof.
  intros Hlive Hsame.
  destruct (storeNext_live state Hlive) as (_ & -> & _).
  destruct Hlive as (_ & _ & Hd & _).
  cbn [distinctAfter]. rewrite Hsame, Hd. reflexivity.
Qed.

Lemma storeNext_same_loading (state : AppStore.AppState) (w : World)
      (lastData : list JsValue) (lastLoading : bool) :
  live w lastData lastLoading ->
  AppStore.selectAppLoading state = AppStore.selectAppLoading (store w) ->
  posted LOADING_EVENT (snd (storeNext state w)) = [].
Proof.
  intros Hlive Hsame.
  destruct (storeNext_live state Hlive) as (_ & _ & ->).
  destruct Hlive as (_ & _ & _ & Hl).
  cbn [distinctAfter]. rewrite Hsame, <- Hl, eqb_reflx. reflexivity.
Qed.

End BroadcastFacts.

(** C7.  While the subscriptions of [startBroadcastingStoreUpdates] are
    live, the item lists broadcast as [APP_STORE_DATA_UPDATE] are the lists of
    the store's states with every list left out whose JSON text is that of
    the list broadcast last: no two consecutive broadcasts are for the same
    item list.  The flags broadcast as [APP_STORE_LOADING_UPDATE] are the
    loading flags with repetitions left out: no two consecutive ones are the
    same flag.  A state of the store with the item list (the flag) of the
    state before it causes no [APP_STORE_DATA_UPDATE]
    ([APP_STORE_LOADING_UPDATE]). *)
Theorem C7_consecutive_duplicates_suppressed
        (w : StoreBridgeService.World) (states : list AppStore.AppState)
        (other : AppStore.AppState) :
  let started := StoreBridgeService.startBroadcastingStoreUpdates w in
  let run := StoreBridgeService.storeRun states (fst started) in
  let effects := snd started ++ snd run in
  let history := StoreBridgeService.store w :: states in
  let lists := distinctUntilChanged sameItems (map AppStore.selectAppData history) in
  let flags := distinctUntilChanged Bool.eqb (map AppStore.selectAppLoading history) in
  let now := StoreBridgeService.store (fst run) in
  posted StoreBridgeService.DATA_EVENT effects
  = map (fun items => StoreBridgeService.sanitizeData (JArr items)) lists
  /\ noRepeat lists
  /\ posted StoreBridgeService.LOADING_EVENT effects = map JBool flags
  /\ noRepeat flags
  /\ noRepeat (posted StoreBridgeService.LOADING_EVENT effects)
  /\ posted StoreBridgeService.DATA_EVENT
       (snd (StoreBridgeService.storeNext
               {| AppStore.isLoaded := AppStore.isLoaded other;
                  AppStore.loading := AppStore.loading other;
                  AppStore.error := AppStore.error other;
                  AppStore.data := AppStore.data now |} (fst run))) = []
  /\ posted StoreBridgeService.LOADING_EVENT
       (snd (StoreBridgeService.storeNext
               {| AppStore.isLoaded := AppStore.isLoaded other;
                  AppStore.loading := AppStore.loading now;
                  AppStore.error := AppStore.error other;
                  AppStore.data := AppStore.data other |} (fst run))) = [].
Proof.
  intros started run effects history lists flags now.
  destruct (storeRun_live states (live_start w)) as ((ld & ll & Hlive) & Hd & Hl).
  fold started in Hd, Hl, Hlive. fold run in Hd, Hl, Hlive.
  assert (Hposted : posted StoreBridgeService.LOADING_EVENT effects = map JBool flags).
  { subst effects. rewrite posted_app, Hl. reflexivity. }
  assert (Hflags : noRepeat flags).
  { apply distinctUntilChanged_noRepeat. apply eqb_reflx. }
  split; [|split; [|split; [|split; [|split; [|split]]]]].
  - subst effects. rewrite posted_app, Hd. reflexivity.
  - apply distinctUntilChanged_noRepeat. apply sameItems_same.
  - exact Hposted.
  - exact Hflags.
  - rewrite Hposted. apply noRepeat_map_JBool, Hflags.
  - apply (storeNext_same_data _ Hlive). reflexivity.
  - apply (storeNext_same_loading _ Hlive). reflexivity.
Qed.


(** * Further properties of the code *)

(** ** DataService *)

Section ProviderFacts.

Import DataService.

Lemma call_appends (c : Call) (s : t) :
  isCustom c = true \/ c = CallGetSampleData \/ (exists count, c = CallAddMoreData count) ->
  exists added, sampleData (snd (call c s)) = sampleData s ++ added.
Proof.
  intros [H | [-> | [count ->]]].
  - destruct c; try discriminate. eexists. reflexivity.
  - exists []. simpl. now rewrite app_nil_r.
  - eexists. apply addMoreData_sampleData.
Qed.

Lemma after_app (h1 h2 : list Call) (s : t) :
  after (h1 ++ h2) s = after h2 (after h1 s).
Proof. unfold after. apply fold_left_app. Qed.

Lemma after_baseline_prefix (history : list Call) :
  exists rest, sampleData (after history initial) = baseline ++ rest.
Proof.
  induction history as [|c history IH] using rev_ind.
  - exists []. reflexivity.
  - rewrite after_app. destruct IH as [rest IH]. cbn [after fold_left].
    destruct c.
    + exists rest. exact IH.
    + destruct (@call_appends (CallAddCustomItem item_name item_description)
                  (after history initial)) as [added Hadded]; [left; reflexivity|].
      exists (rest ++ added). rewrite Hadded, IH. symmetry. apply app_assoc.
    + destruct (@call_appends (CallAddMoreData count) (after history initial))
        as [added Hadded]; [right; right; eexists; reflexivity|].
      exists (rest ++ added). rewrite Hadded, IH. symmetry. apply app_assoc.
    + exists []. reflexivity.
Qed.

Lemma arrayFromLength_add (a b : Z) (f : nat -> DataItem) :
  0 <= a -> 0 <= b ->
  arrayFromLength (a + b) f
  = arrayFromLength a f ++ arrayFromLength b (fun index => f (Z.to_nat a + index)%nat).
Proof.
  intros Ha Hb. unfold arrayFromLength.
  rewrite Z2Nat.inj_add by assumption.
  rewrite seq_app, map_app. f_equal.
  cbn [Nat.add].
  generalize (Z.to_nat a) as k. intros k.
  rewrite <- (Nat.add_0_r k) at 1.
  generalize 0%nat as lo. induction (Z.to_nat b) as [|n IH]; intros lo; cbn [seq map];
    [reflexivity|].
  f_equal. rewrite <- IH. do 2 f_equal. lia.
Qed.

Lemma addMoreData_canonical (count : option Z) (s : t) :
  sampleData s = map generated (map Z.of_nat (seq 1 (List.length (sampleData s)))) ->
  sampleData (snd (addMoreData count s))
  = map generated
        (map Z.of_nat (seq 1 (List.length (sampleData (snd (addMoreData count s)))))).
Proof.
  intros H. rewrite addMoreData_sampleData.
  rewrite length_app, length_map, length_seq, seq_app, !map_app.
  f_equal; [exact H|].
  rewrite <- (map_map (fun index => Z.of_nat (List.length (sampleData s)) + Z.of_nat index + 1)
                      generated).
  rewrite generated_ids_from. do 3 f_equal. lia.
Qed.

Lemma after_canonical (history : list Call) (s : t) :
  forallb (fun c => negb (isCustom c)) history = true ->
  sampleData s = map generated (map Z.of_nat (seq 1 (List.length (sampleData s)))) ->
  sampleData (after history s)
  = map generated (map Z.of_nat (seq 1 (List.length (sampleData (after history s))))).
Proof.
  revert s. induction history as [|c history IH]; intros s Hall Hs; [exact Hs|].
  cbn [forallb] in Hall. apply andb_prop in Hall. destruct Hall as [Hc Hall].
  cbn [after fold_left]. apply (IH _ Hall).
  destruct c; try discriminate.
  - exact Hs.
  - apply addMoreData_canonical, Hs.
  - reflexivity.
Qed.

End ProviderFacts.

(** X1.  Whatever was called before, the list of the service begins with the
    7 items of the baseline, so it never has fewer than 7 items; and no
    method but [resetData] removes or changes an item of the list: the list
    after a call is the list before it with items appended. *)
Theorem X1_baseline_is_kept (history : list DataService.Call) (c : DataService.Call) :
  let s := DataService.after history DataService.initial in
  (exists rest, DataService.sampleData s = DataService.baseline ++ rest)
  /\ (7 <= List.length (DataService.sampleData s))%nat
  /\ match c with
     | DataService.CallResetData =>
         DataService.sampleData (snd (DataService.call c s)) = DataService.baseline
     | _ =>
         exists added,
           DataService.sampleData (snd (DataService.call c s))
           = DataService.sampleData s ++ added
     end.
Proof.
  intros s. destruct (after_baseline_prefix history) as [rest Hrest]. fold s in Hrest.
  split; [exists rest; exact Hrest|]. split.
  - rewrite Hrest, length_app. cbn. lia.
  - destruct c.
    + apply call_appends. right. left. reflexivity.
    + apply call_appends. left. reflexivity.
    + apply call_appends. right. right. eexists. reflexivity.
    + reflexivity.
Qed.

(** X2.  Two calls of [addMoreData] with counts [a] and [b] that are not
    negative leave the list, and deliver the list, that one call with
    [a + b] does; a call without a count is a call with 5. *)
Theorem X2_addMoreData_adds_up (a b : Z) (s : DataService.t) :
  0 <= a -> 0 <= b ->
  DataService.addMoreData (Some b) (snd (DataService.addMoreData (Some a) s))
  = DataService.addMoreData (Some (a + b)) s
  /\ DataService.addMoreData None s = DataService.addMoreData (Some 5) s.
Proof.
  intros Ha Hb. split; [|reflexivity].
  unfold DataService.addMoreData. cbn [snd DataService.defaultArg DataService.sampleData].
  rewrite (arrayFromLength_add _ Ha Hb), app_assoc.
  assert (E : DataService.arrayFromLength b
                (fun index =>
                   DataService.generated
                     (Z.of_nat (List.length
                        (DataService.sampleData s
                         ++ DataService.arrayFromLength a
                              (fun index0 =>
                                 DataService.generated
                                   (Z.of_nat (List.length (DataService.sampleData s))
                                    + Z.of_nat index0 + 1))))
                      + Z.of_nat index + 1))
              = DataService.arrayFromLength b
                  (fun index =>
                     DataService.generated
                       (Z.of_nat (List.length (DataService.sampleData s))
                        + Z.of_nat (Z.to_nat a + index) + 1))).
  { unfold DataService.arrayFromLength. apply map_ext. intros index. f_equal.
    rewrite length_app, length_map, length_seq. lia. }
  rewrite E. reflexivity.
Qed.

Lemma X2_witness :
  0 <= 2 /\ 0 <= 3
  /\ DataService.addMoreData (Some 3) (snd (DataService.addMoreData (Some 2) DataService.initial))
     = DataService.addMoreData (Some 5) DataService.initial.
Proof.
  split; [lia|]. split; [lia|].
  apply (X2_addMoreData_adds_up (a := 2) (b := 3) DataService.initial); lia.
Defined.

(** X3.  As long as no item was added by [addCustomItem], the list is
    determined by its length: the item at position k has the id k, the name
    [Item k] and the description [Description for item k]. *)
Theorem X3_generated_list (history : list DataService.Call) :
  forallb (fun c => negb (isCustom c)) history = true ->
  let s := DataService.after history DataService.initial in
  DataService.sampleData s
  = map DataService.generated
        (map Z.of_nat (seq 1 (List.length (DataService.sampleData s)))).
Proof.
  intros Hall s. apply after_canonical; [exact Hall | reflexivity].
Qed.

Lemma X3_witness :
  forallb (fun c => negb (isCustom c))
          [DataService.CallAddMoreData (Some 2); DataService.CallGetSampleData] = true
  /\ DataService.sampleData
       (DataService.after [DataService.CallAddMoreData (Some 2); DataService.CallGetSampleData]
                          DataService.initial)
     = map DataService.generated [1; 2; 3; 4; 5; 6; 7; 8; 9].
Proof.
  split; [reflexivity|].
  apply (X3_generated_list
           [DataService.CallAddMoreData (Some 2); DataService.CallGetSampleData]).
  reflexivity.
Defined.

(** ** The store and its effect *)

Section StoreFacts.

Import AppStore.


End StoreFacts.



(** ** AppComponent *)

Section ContainerFacts.

Import StoreBridgeService.

Lemma storeNext_store (state : AppStore.AppState) (w : World) :
  store (fst (storeNext state w)) = state
  /\ dataService (fst (storeNext state w)) = dataService w.
Proof.
  unfold storeNext.
  destruct (dataNext state (this w)) as [b1 e1].
  destruct (loadingNext state b1) as [b2 e2]. split; reflexivity.
Qed.

Lemma dispatch_services (action : AppStore.Action) (c : AppComponent.Container) :
  let o := AppComponent.dispatch action c in
  store (AppComponent.services (fst (fst o)))
  = AppStore.appReducer (store (AppComponent.services c)) action
  /\ dataService (AppComponent.services (fst (fst o)))
     = dataService (AppComponent.services c)
  /\ AppComponent.component (fst (fst o)) = AppComponent.component c
  /\ snd o = map AppComponent.EffectAction
                 (fst (AppEffects.loadApp_effect action
                         (dataService (AppComponent.services c)))).
Proof.
  unfold AppComponent.dispatch.
  destruct (storeNext_store
              (AppStore.appReducer (store (AppComponent.services c)) action)
              (AppComponent.services c)) as [Hs Hd].
  destruct (storeNext _ (AppComponent.services c)) as [w1 e]. cbn [fst] in Hs, Hd.
  destruct action; cbn; rewrite ?Hs, ?Hd; repeat split.
Qed.

Lemma step_task (c : AppComponent.Container) (e : list Effect)
      (task : AppComponent.Task) (tasks : list AppComponent.Task) :
  fst (fst (AppComponent.step (c, e, task :: tasks))) = fst (fst (AppComponent.run task c))
  /\ snd (AppComponent.step (c, e, task :: tasks)) = tasks ++ snd (AppComponent.run task c).
Proof.
  cbn [AppComponent.step]. destruct (AppComponent.run task c) as [[c1 e1] later].
  split; reflexivity.
Qed.

(** What a reload leaves, whichever callback started it. *)
Lemma reload_completed (c : AppComponent.Container) (e : list Effect)
      (task : AppComponent.Task) :
  task = AppComponent.Reload \/ task = AppComponent.ReloadAndResetForm ->
  let o := AppComponent.completed (c, e, [task]) in
  snd o = []
  /\ store (AppComponent.services (fst (fst o)))
     = {| AppStore.isLoaded := true; AppStore.loading := false; AppStore.error := None;
          AppStore.data :=
            map itemValue
                (DataService.sampleData (dataService (AppComponent.services c))) |}
  /\ dataService (AppComponent.services (fst (fst o)))
     = dataService (AppComponent.services c).
Proof.
  intros Htask o. subst o. unfold AppComponent.completed.
  destruct (step_task c e task []) as [H1 H2].
  destruct (AppComponent.step (c, e, [task])) as [[c1 e1] tasks1].
  cbn [fst snd app] in H1, H2.
  assert (Hrun : store (AppComponent.services c1)
                 = AppStore.appReducer (store (AppComponent.services c)) AppStore.loadApp
                 /\ dataService (AppComponent.services c1)
                    = dataService (AppComponent.services c)
                 /\ tasks1 = [AppComponent.EffectAction
                                (AppStore.loadAppSuccess
                                   (map itemValue
                                      (DataService.sampleData
                                         (dataService (AppComponent.services c)))))]).
  { destruct (dispatch_services AppStore.loadApp c) as (Hs & Hd & _ & Hl).
    subst c1 tasks1. destruct Htask as [-> | ->]; cbn [AppComponent.run].
    - repeat split; assumption.
    - destruct (AppComponent.dispatch AppStore.loadApp c) as [[c' e'] l'].
      cbn in *. repeat split; assumption. }
  destruct Hrun as (Hs & Hd & ->).
  destruct (step_task c1 e1
              (AppComponent.EffectAction
                 (AppStore.loadAppSuccess
                    (map itemValue
                       (DataService.sampleData (dataService (AppComponent.services c))))))
              []) as [H3 H4].
  cbn [AppComponent.run app] in H3, H4.
  destruct (dispatch_services
              (AppStore.loadAppSuccess
                 (map itemValue
                    (DataService.sampleData (dataService (AppComponent.services c))))) c1)
    as (Hs2 & Hd2 & _ & Hl2).
  rewrite H3, H4. repeat split.
  - exact Hl2.
  - rewrite Hs2, Hs. reflexivity.
  - rewrite Hd2, Hd. reflexivity.
Qed.

End ContainerFacts.

(** X7.  [addMoreData(count)], [resetData()] and [addCustomData()] of the
    component change the provider at once and, once the callback and the
    effect have run, leave the store loaded with exactly the list the
    provider then holds, not loading and without error; nothing is left to
    run.  [addCustomData()] also empties the form. *)
Theorem X7_component_reloads_store (c : AppComponent.Container) (count : Z) :
  let provider := StoreBridgeService.dataService (AppComponent.services c) in
  let form := AppComponent.newItem (AppComponent.component c) in
  let reloaded := fun (o : AppComponent.Outcome) (d : DataService.t) =>
    snd o = []
    /\ StoreBridgeService.store (AppComponent.services (fst (fst o)))
       = {| AppStore.isLoaded := true; AppStore.loading := false; AppStore.error := None;
            AppStore.data := map itemValue (DataService.sampleData d) |}
    /\ StoreBridgeService.dataService (AppComponent.services (fst (fst o))) = d in
  reloaded (AppComponent.completed (AppComponent.addMoreData count c))
           (snd (DataService.addMoreData (Some count) provider))
  /\ reloaded (AppComponent.completed (AppComponent.resetData c)) DataService.initial
  /\ reloaded (AppComponent.completed (AppComponent.addCustomData c))
              (snd (DataService.addCustomItem (AppComponent.name form)
                      (AppComponent.description form) provider))
  /\ AppComponent.newItem
       (AppComponent.component
          (fst (fst (AppComponent.completed (AppComponent.addCustomData c)))))
     = {| AppComponent.name := EmptyString; AppComponent.description := EmptyString |}.
Proof.
  intros provider form reloaded. subst reloaded. cbv beta.
  split; [|split; [|split]].
  - apply (reload_completed
             (AppComponent.withServices c
                (StoreBridgeService.withDataService (AppComponent.services c)
                   (snd (DataService.addMoreData (Some count) provider))))
             [] (task := AppComponent.Reload)).
    left. reflexivity.
  - apply (reload_completed
             (AppComponent.withServices c
                (StoreBridgeService.withDataService (AppComponent.services c)
                   DataService.initial))
             [] (task := AppComponent.Reload)).
    left. reflexivity.
  - apply (reload_completed
             (AppComponent.withServices c
                (StoreBridgeService.withDataService (AppComponent.services c)
                   (snd (DataService.addCustomItem (AppComponent.name form)
                           (AppComponent.description form) provider))))
             [] (task := AppComponent.ReloadAndResetForm)).
    right. reflexivity.
  - unfold AppComponent.completed, AppComponent.addCustomData, AppComponent.callProvider.
    cbn [DataService.addCustomItem delay rx_of subscribe next app AppComponent.step
         AppComponent.run].
    destruct (AppComponent.dispatch AppStore.loadApp _) as [[c1 e1] later].
    cbn [app]. destruct later as [|task later]; [reflexivity|].
    cbn [AppComponent.step].
    pose proof (dispatch_services) as Hd.
    destruct task; cbn [AppComponent.run].
    + specialize (Hd AppStore.loadApp
                     {| AppComponent.component :=
                          {| AppComponent.newItem :=
                               {| AppComponent.name := EmptyString;
                                  AppComponent.description := EmptyString |} |};
                        AppComponent.services := AppComponent.services c1 |}).
      destruct Hd as (_ & _ & Hc & _).
      destruct (AppComponent.dispatch AppStore.loadApp _) as [[c2 e2] l2].
      cbn in *. rewrite Hc. reflexivity.
    + destruct (AppComponent.dispatch AppStore.loadApp _) as [[c2 e2] l2].
      reflexivity.
    + specialize (Hd action
                     {| AppComponent.component :=
                          {| AppComponent.newItem :=
                               {| AppComponent.name := EmptyString;
                                  AppComponent.description := EmptyString |} |};
                        AppComponent.services := AppComponent.services c1 |}).
      destruct Hd as (_ & _ & Hc & _).
      destruct (AppComponent.dispatch action _) as [[c2 e2] l2].
      cbn in *. rewrite Hc. reflexivity.
Qed.

(** X6.  A container that starts ([ngOnInit]) with a new store, whatever
    the provider went through before, broadcasts in this order: the empty
    list and the loading flag [true] when the subscriptions are made, then,
    when the effect delivers, the list of the provider and the flag [false].
    A React component that receives these messages shows the list of the
    provider, is not loading and knows the store to be available. *)
Theorem X6_startup_broadcasts (history : list DataService.Call) (react : ReactApp.State) :
  let d := DataService.after history DataService.initial in
  let items := DataService.sampleData d in
  let o := AppComponent.completed
             (AppComponent.ngOnInit (AppComponent.created AppStore.initialAppState d)) in
  snd (fst o)
  = [ StoreBridgeService.StoreDispatch AppStore.loadApp;
      StoreBridgeService.StoreSelect AppStore.SelectAppData;
      StoreBridgeService.PostMessage
        (StoreBridgeService.message StoreBridgeService.DATA_EVENT (JArr []));
      StoreBridgeService.StoreSelect AppStore.SelectAppLoading;
      StoreBridgeService.PostMessage
        (StoreBridgeService.message StoreBridgeService.LOADING_EVENT (JBool true));
      StoreBridgeService.StoreDispatch (AppStore.loadAppSuccess (map itemValue items));
      StoreBridgeService.PostMessage
        (StoreBridgeService.message StoreBridgeService.DATA_EVENT (itemsValue items));
      StoreBridgeService.PostMessage
        (StoreBridgeService.message StoreBridgeService.LOADING_EVENT (JBool false)) ]
  /\ snd o = []
  /\ toReact (snd (fst o)) react
     = {| ReactApp.data := itemsValue items;
          ReactApp.loading := JBool false;
          ReactApp.storeAvailable := true;
          ReactApp.requestAttempted := ReactApp.requestAttempted react;
          ReactApp.requestTimeout := ReactApp.requestTimeout react;
          ReactApp.addItemCount := ReactApp.addItemCount react |}.
Proof.
  intros d items o.
  destruct (after_baseline_prefix history) as [rest Hrest].
  assert (Heffects : snd (fst o)
  = [ StoreBridgeService.StoreDispatch AppStore.loadApp;
      StoreBridgeService.StoreSelect AppStore.SelectAppData;
      StoreBridgeService.PostMessage
        (StoreBridgeService.message StoreBridgeService.DATA_EVENT (JArr []));
      StoreBridgeService.StoreSelect AppStore.SelectAppLoading;
      StoreBridgeService.PostMessage
        (StoreBridgeService.message StoreBridgeService.LOADING_EVENT (JBool true));
      StoreBridgeService.StoreDispatch (AppStore.loadAppSuccess (map itemValue items));
      StoreBridgeService.PostMessage
        (StoreBridgeService.message StoreBridgeService.DATA_EVENT
           (StoreBridgeService.sanitizeData (itemsValue items)));
      StoreBridgeService.PostMessage
        (StoreBridgeService.message StoreBridgeService.LOADING_EVENT (JBool false)) ]
  /\ snd o = []).
  { subst o items. fold d in Hrest. destruct d as [l]. cbn in Hrest. subst l.
    split; reflexivity. }
  rewrite sanitizeData_items in Heffects.
  destruct Heffects as [Heffects Htasks].
  split; [exact Heffects|]. split; [exact Htasks|].
  rewrite Heffects. unfold itemsValue. reflexivity.
Qed.

(** ** StoreBridgeService: the other requests *)

Section QuietFacts.

Import StoreBridgeService.






End QuietFacts.









(** ** StoreBridgeService: starting and stopping the broadcast *)

Section StartStopFacts.

Import StoreBridgeService.

Lemma last_nonempty (A : Type) (a : A) (l : list A) (x y : A) :
  last (a :: l) x = last (a :: l) y.
Proof.
  revert a. induction l as [|b l IH]; intros a; [reflexivity|].
  change (last (a :: b :: l) x) with (last (b :: l) x).
  change (last (a :: b :: l) y) with (last (b :: l) y). apply IH.
Qed.

Lemma storeRun_stopped (states : list AppStore.AppState) (w : World) :
  dataSubscription (this w) = None ->
  loadingSubscription (this w) = None ->
  storeRun states w
  = ({| store := last states (store w); dataService := dataService w; this := this w |}, []).
Proof.
  revert w. induction states as [|state rest IH]; intros w Hd Hl.
  - destruct w. reflexivity.
  - cbn [storeRun]. unfold storeNext, dataNext, loadingNext. rewrite Hd, Hl.
    rewrite IH by assumption. cbn [store dataService this app].
    destruct rest as [|a rest]; [reflexivity|].
    rewrite (last_nonempty a rest state (store w)). reflexivity.
Qed.

Lemma sanitizeData_idempotent (data : JsValue) :
  sanitizeData (sanitizeData data) = sanitizeData data.
Proof.
  destruct data as [| |b|n|s|elements|properties];
    try reflexivity.
  - destruct b; reflexivity.
  - unfold sanitizeData. cbn [truthy]. destruct (n =? 0) eqn:E; cbn; [reflexivity|].
    rewrite E. reflexivity.
  - unfold sanitizeData. cbn [truthy]. destruct (s =? EmptyString)%string eqn:E; cbn;
      [reflexivity|]. rewrite E. reflexivity.
  - rewrite !sanitizeData_array, map_map. reflexivity.
Qed.

End StartStopFacts.

(** X12.  After [stopBroadcastingStoreUpdates()], and for a service on which
    broadcasting was never started, no change of the store is broadcast:
    whatever states the store goes through, nothing is posted and the service
    stays as it is. *)
Theorem X12_stopped_service_is_silent (w : StoreBridgeService.World)
        (s : AppStore.AppState) (d : DataService.t) (states : list AppStore.AppState) :
  let stopped := fst (StoreBridgeService.stopBroadcastingStoreUpdates w) in
  StoreBridgeService.storeRun states stopped
  = ({| StoreBridgeService.store := last states (StoreBridgeService.store w);
        StoreBridgeService.dataService := StoreBridgeService.dataService w;
        StoreBridgeService.this := StoreBridgeService.this stopped |}, [])
  /\ snd (StoreBridgeService.storeRun states (freshWorld s d)) = []
  /\ StoreBridgeService.broadcasting (StoreBridgeService.this stopped) = false.
Proof.
  intros stopped. split; [|split].
  - apply (storeRun_stopped states stopped); reflexivity.
  - rewrite (storeRun_stopped states (freshWorld s d)); reflexivity.
  - reflexivity.
Qed.


(** X14.  The count repairs itself: in a state with count 0, also one in
    which the component has started broadcasting directly, the first call of
    [activateBroadcasting()] or [deactivateBroadcasting()] and every call
    after it leave the count not negative and broadcasting on exactly when
    the count is positive.  So a [deactivateBroadcasting()] at count 0 stops
    a broadcast that [startBroadcastingStoreUpdates()] started. *)
Theorem X14_count_repairs_itself (w : StoreBridgeService.World)
        (c : StoreBridgeService.Toggle) (cs : list StoreBridgeService.Toggle) :
  StoreBridgeService.activeListeners (StoreBridgeService.this w) = 0 ->
  counted (StoreBridgeService.toggles (c :: cs) w)
  /\ StoreBridgeService.broadcasting
       (StoreBridgeService.this
          (StoreBridgeService.toggle StoreBridgeService.Deactivate
             (fst (StoreBridgeService.startBroadcastingStoreUpdates w)))) = false.
Proof.
  intros Hzero. split.
  - cbn [StoreBridgeService.toggles fold_left]. apply counted_toggles.
    destruct w as [s d [ds ls es n]]. cbn in Hzero. subst n.
    destruct c; split; cbn; solve [lia | reflexivity].
  - destruct w as [s d [ds ls es n]]. cbn in Hzero. subst n. reflexivity.
Qed.

Lemma X14_witness :
  StoreBridgeService.activeListeners
    (StoreBridgeService.this
       (fst (StoreBridgeService.startBroadcastingStoreUpdates
               (freshWorld AppStore.initialAppState DataService.initial)))) = 0
  /\ StoreBridgeService.broadcasting
       (StoreBridgeService.this
          (fst (StoreBridgeService.startBroadcastingStoreUpdates
                  (freshWorld AppStore.initialAppState DataService.initial)))) = true
  /\ counted (StoreBridgeService.toggles [StoreBridgeService.Deactivate]
                (fst (StoreBridgeService.startBroadcastingStoreUpdates
                        (freshWorld AppStore.initialAppState DataService.initial)))).
Proof.
  split; [reflexivity|]. split; [reflexivity|].
  apply (X14_count_repairs_itself
           (fst (StoreBridgeService.startBroadcastingStoreUpdates
                   (freshWorld AppStore.initialAppState DataService.initial)))
           StoreBridgeService.Deactivate []).
  reflexivity.
Defined.

(** X15.  [sanitizeData] gives the empty array for every falsy argument
    ([null], [undefined], [false], [0], the empty string), gives an array of
    as many objects as the array it is given has elements, returns every
    other value as it is, and changes nothing when applied to its own
    result. *)
Theorem X15_sanitizeData_shape (data : JsValue) (items : list JsValue) :
  StoreBridgeService.sanitizeData (StoreBridgeService.sanitizeData data)
  = StoreBridgeService.sanitizeData data
  /\ (if truthy data
      then match data with
           | JArr _ => True
           | _ => StoreBridgeService.sanitizeData data = data
           end
      else StoreBridgeService.sanitizeData data = JArr [])
  /\ (exists copies,
        StoreBridgeService.sanitizeData (JArr items) = JArr (map JObj copies)
        /\ List.length copies = List.length items).
Proof.
  split; [apply sanitizeData_idempotent|]. split.
  - unfold StoreBridgeService.sanitizeData.
    destruct (truthy data) eqn:E; [|reflexivity].
    destruct data; cbn; trivial.
  - exists (map StoreBridgeService.ownProperties items).
    rewrite sanitizeData_array, map_map, length_map. split; reflexivity.
Qed.

(** ** The React component *)

Section ReactFacts.

Import ReactRequests.











End ReactFacts.


Section ReactLifeFacts.

Import ReactRequests.

Lemma handle_attempted (event : Event) (state : ReactApp.State) :
  ReactApp.requestAttempted state = true ->
  ReactApp.requestAttempted (fst (handle event state)) = true.
Proof.
  intros H. destruct event; cbn [handle fst]; try exact H; try reflexivity.
  - unfold ReactApp.handleBroadcastMessage.
    destruct (negb (truthy eventData) || negb (truthy (prop "type" eventData))); [exact H|].
    destruct (strictEqStr _ ReactApp.STORE_EVENTS_DATA); [exact H|].
    destruct (strictEqStr _ ReactApp.STORE_EVENTS_LOADING); exact H.
  - unfold requestTimedOut. destruct (negb (ReactApp.storeAvailable state));
      [reflexivity | exact H].
  - unfold handleAddItemCountChange.
    destruct ((value =? EmptyString)%string || digitsOnly value); exact H.
Qed.

Lemma handle_data_truthy (event : Event) (state : ReactApp.State) :
  truthy (ReactApp.data state) = true ->
  truthy (ReactApp.data (fst (handle event state))) = true.
Proof.
  intros H. destruct event; cbn [handle fst]; try exact H; try reflexivity.
  - unfold ReactApp.handleBroadcastMessage.
    destruct (negb (truthy eventData) || negb (truthy (prop "type" eventData))); [exact H|].
    destruct (strictEqStr _ ReactApp.STORE_EVENTS_DATA).
    + cbn [ReactApp.data]. unfold ReactApp.orElse.
      destruct (truthy (prop "payload" eventData)) eqn:E; [exact E | reflexivity].
    + destruct (strictEqStr _ ReactApp.STORE_EVENTS_LOADING); exact H.
  - unfold requestTimedOut. destruct (negb (ReactApp.storeAvailable state)); exact H.
  - unfold handleAddItemCountChange.
    destruct ((value =? EmptyString)%string || digitsOnly value); exact H.
Qed.

Lemma handleAll_mounted (events : list Event) (state : ReactApp.State) :
  ReactApp.requestAttempted state = true ->
  truthy (ReactApp.data state) = true ->
  ReactApp.requestAttempted (fst (handleAll events state)) = true
  /\ truthy (ReactApp.data (fst (handleAll events state))) = true.
Proof.
  revert state. induction events as [|event rest IH]; intros state Ha Hd; [split; trivial|].
  cbn [handleAll].
  pose proof (handle_attempted event state Ha) as H1.
  pose proof (handle_data_truthy event state Hd) as H2.
  destruct (handle event state) as [state1 e1]. cbn [fst] in H1, H2.
  destruct (IH state1 H1 H2) as [H3 H4].
  destruct (handleAll rest state1) as [state2 e2]. split; assumption.
Qed.

Lemma handle_timeout_kept (event : Event) (state : ReactApp.State) :
  isMounted event = false ->
  ReactApp.requestTimeout (fst (handle event state)) = ReactApp.requestTimeout state.
Proof.
  intros H. destruct event; try discriminate; cbn [handle fst]; try reflexivity.
  - unfold ReactApp.handleBroadcastMessage.
    destruct (negb (truthy eventData) || negb (truthy (prop "type" eventData)));
      [reflexivity|].
    destruct (strictEqStr _ ReactApp.STORE_EVENTS_DATA); [reflexivity|].
    destruct (strictEqStr _ ReactApp.STORE_EVENTS_LOADING); reflexivity.
  - unfold requestTimedOut. destruct (negb (ReactApp.storeAvailable state)); reflexivity.
  - unfold handleAddItemCountChange.
    destruct ((value =? EmptyString)%string || digitsOnly value); reflexivity.
Qed.

Lemma handleAll_timeout_kept (events : list Event) (state : ReactApp.State) :
  forallb (fun event => negb (isMounted event)) events = true ->
  ReactApp.requestTimeout (fst (handleAll events state)) = ReactApp.requestTimeout state.
Proof.
  revert state. induction events as [|event rest IH]; intros state H; [reflexivity|].
  cbn [forallb] in H. apply andb_prop in H. destruct H as [H1 H2].
  apply negb_true_iff in H1.
  cbn [handleAll]. pose proof (handle_timeout_kept event state H1) as Hk.
  destruct (handle event state) as [state1 e1]. cbn [fst] in Hk.
  specialize (IH state1 H2). destruct (handleAll rest state1) as [state2 e2].
  cbn [fst] in *. congruence.
Qed.

End ReactLifeFacts.

(** X17.  Once the component is mounted, whatever happens afterwards, it
    has marked the request as attempted and its [data] is never a falsy
    value; hence the callback of the 2-second timeout changes nothing,
    whether or not data has arrived by then. *)
Theorem X17_timeout_changes_nothing (handle : Z) (events : list ReactRequests.Event)
        (before : ReactApp.State) :
  let state :=
    fst (ReactRequests.handleAll (ReactRequests.Mounted handle :: events) before) in
  ReactRequests.requestTimedOut state = state
  /\ ReactApp.requestAttempted state = true
  /\ truthy (ReactApp.data state) = true.
Proof.
  intros state. subst state. cbn [ReactRequests.handleAll].
  destruct (ReactRequests.handle (ReactRequests.Mounted handle) before) as [state1 e1] eqn:E1.
  assert (Ha : ReactApp.requestAttempted state1 = true /\ truthy (ReactApp.data state1) = true).
  { cbn in E1. injection E1 as <- _. split; reflexivity. }
  destruct (handleAll_mounted events state1 (proj1 Ha) (proj2 Ha)) as [H1 H2].
  destruct (ReactRequests.handleAll events state1) as [state2 e2]. cbn [fst] in *.
  repeat split; try assumption.
  unfold ReactRequests.requestTimedOut.
  destruct (negb (ReactApp.storeAvailable state2)); [|reflexivity].
  destruct state2. cbn in H1. subst. reflexivity.
Qed.

(** X21.  When the component unmounts after it was mounted with a timer
    handle that is not 0 and was not mounted again, it clears that timer and
    closes the channel, whatever happened in between; its state stays as it
    is. *)
Theorem X21_unmount_clears_timer (handle : Z) (events : list ReactRequests.Event)
        (before : ReactApp.State) :
  handle <> 0 ->
  forallb (fun event => negb (isMounted event)) events = true ->
  let state :=
    fst (ReactRequests.handleAll (ReactRequests.Mounted handle :: events) before) in
  ReactRequests.componentWillUnmount state
  = (state, [ReactRequests.ClearTimeout handle; ReactRequests.Close]).
Proof.
  intros Hh Hevents state. subst state. cbn [ReactRequests.handleAll].
  destruct (ReactRequests.handle (ReactRequests.Mounted handle) before) as [state1 e1] eqn:E1.
  assert (Ht : ReactApp.requestTimeout state1 = Some handle)
    by (cbn in E1; injection E1 as <- _; reflexivity).
  pose proof (handleAll_timeout_kept events state1 Hevents) as Hk.
  destruct (ReactRequests.handleAll events state1) as [state2 e2]. cbn [fst] in *.
  unfold ReactRequests.componentWillUnmount. rewrite Hk, Ht.
  destruct (Z.eqb_spec handle 0); [contradiction | reflexivity].
Qed.

Lemma X21_witness :
  7 <> 0
  /\ forallb (fun event => negb (isMounted event))
             [ReactRequests.MoreClicked; ReactRequests.TimedOut] = true
  /\ snd (ReactRequests.componentWillUnmount
            (fst (ReactRequests.handleAll
                    [ReactRequests.Mounted 7; ReactRequests.MoreClicked;
                     ReactRequests.TimedOut] ReactApp.initial)))
     = [ReactRequests.ClearTimeout 7; ReactRequests.Close].
Proof.
  split; [discriminate|]. split; [reflexivity|].
  rewrite (@X21_unmount_clears_timer 7
             [ReactRequests.MoreClicked; ReactRequests.TimedOut] ReactApp.initial);
    [reflexivity | discriminate | reflexivity].
Defined.

(** ** The two sides together *)

(** X18.  The component asks for the current data (on mounting and on
    retry) with two messages; the bridge answers each with one message and
    changes nothing; after the answers the component holds a copy of the item
    list of the store and its loading flag, knows the store to be available,
    and has marked the request as attempted. *)
Theorem X18_current_data_round_trip (react : ReactApp.State)
        (w : StoreBridgeService.World) :
  let asked := ReactRequests.retryRequestData react in
  let replies :=
    [ StoreBridgeService.StoreSelect AppStore.SelectAppData;
      StoreBridgeService.PostMessage
        (StoreBridgeService.message StoreBridgeService.DATA_EVENT
           (JArr (map StoreBridgeService.spread
                      (AppStore.data (StoreBridgeService.store w)))));
      StoreBridgeService.StoreSelect AppStore.SelectAppLoading;
      StoreBridgeService.PostMessage
        (StoreBridgeService.message StoreBridgeService.LOADING_EVENT
           (JBool (AppStore.loading (StoreBridgeService.store w)))) ] in
  asked = ReactRequests.requestCurrentData react
  /\ toBridge (snd asked) w = Some (w, replies)
  /\ toReact replies (fst asked)
     = {| ReactApp.data :=
            JArr (map StoreBridgeService.spread
                      (AppStore.data (StoreBridgeService.store w)));
          ReactApp.loading := JBool (AppStore.loading (StoreBridgeService.store w));
          ReactApp.storeAvailable := true;
          ReactApp.requestAttempted := true;
          ReactApp.requestTimeout := ReactApp.requestTimeout react;
          ReactApp.addItemCount := ReactApp.addItemCount react |}.
Proof. repeat split. Qed.


(** ** The count field *)

Section CountFieldFacts.





End CountFieldFacts.



(** ** The comparator on lists of the provider *)

Section JsonFacts.

Lemma append_assoc (a b c : string) : ((a ++ b) ++ c = a ++ b ++ c)%string.
Proof. induction a as [|x a IH]; cbn; [reflexivity | now rewrite IH]. Qed.

Lemma unquote_quoteChar (c : ascii) (rest : string) :
  unquoteChar (JSON.quoteChar c ++ rest) = Some (c, rest)
  /\ forall rest', (JSON.quoteChar c ++ rest)%string <> (JSON.dquote ++ rest')%string.
Proof.
  destruct c as [[] [] [] [] [] [] [] []]; (split; [reflexivity | discriminate]).
Qed.

Lemma quoteBody_terminated (s1 s2 r1 r2 : string) :
  (JSON.quoteBody s1 ++ JSON.dquote ++ r1 = JSON.quoteBody s2 ++ JSON.dquote ++ r2)%string ->
  s1 = s2 /\ r1 = r2.
Proof.
  revert s2. induction s1 as [|c1 s1 IH]; intros [|c2 s2] H.
  - cbn in H. injection H as H. now split.
  - exfalso. cbn [JSON.quoteBody] in H. rewrite append_assoc in H.
    symmetry in H. exact (proj2 (unquote_quoteChar c2 _) _ H).
  - exfalso. cbn [JSON.quoteBody] in H. rewrite append_assoc in H.
    exact (proj2 (unquote_quoteChar c1 _) _ H).
  - cbn [JSON.quoteBody] in H. rewrite !append_assoc in H.
    apply (f_equal unquoteChar) in H.
    rewrite (proj1 (unquote_quoteChar c1 _)), (proj1 (unquote_quoteChar c2 _)) in H.
    injection H as Hc H. destruct (IH _ H) as [Hs Hr]. subst. now split.
Qed.

Lemma lacks_terminated (t : ascii) (s1 s2 r1 r2 : string) :
  lacks t s1 = true -> lacks t s2 = true ->
  (s1 ++ String t r1 = s2 ++ String t r2)%string -> s1 = s2 /\ r1 = r2.
Proof.
  revert s2. induction s1 as [|c1 s1 IH]; intros [|c2 s2] H1 H2 H; cbn in *.
  - injection H as H. now split.
  - injection H as Hc _. subst c2. rewrite Ascii.eqb_refl in H2. discriminate.
  - injection H as Hc _. subst c1. rewrite Ascii.eqb_refl in H1. discriminate.
  - injection H as Hc H. apply andb_prop in H1, H2.
    destruct (IH s2 (proj2 H1) (proj2 H2) H) as [Hs Hr]. subst. now split.
Qed.

Lemma numeral_lacks_comma (d : Decimal.uint) :
  lacks "," (NilEmpty.string_of_uint d) = true.
Proof. induction d; cbn; trivial. Qed.

Lemma numToString_lacks_comma (n : Z) : lacks "," (numToString n) = true.
Proof.
  unfold numToString. destruct (Z.to_int n) as [d|d]; cbn [NilZero.string_of_int].
  - unfold NilZero.string_of_uint. destruct d; try reflexivity;
      apply (numeral_lacks_comma (_ d)) || cbn; try apply numeral_lacks_comma.
  - cbn [lacks]. unfold NilZero.string_of_uint. destruct d; try reflexivity;
      cbn; try apply numeral_lacks_comma.
Qed.

Lemma numToString_inj (a b : Z) : numToString a = numToString b -> a = b.
Proof.
  unfold numToString. intros H. apply DecimalZ.to_int_inj.
  assert (Hnil : forall n, Z.to_int n <> Decimal.Pos Decimal.Nil
                           /\ Z.to_int n <> Decimal.Neg Decimal.Nil).
  { intros [|p|p]; cbn; split; try discriminate;
      intros E; injection E as E; exact (Unsigned.to_uint_nonnil p E). }
  pose proof (NilZero.isi (Z.to_int a) (proj1 (Hnil a)) (proj2 (Hnil a))) as Ha.
  pose proof (NilZero.isi (Z.to_int b) (proj1 (Hnil b)) (proj2 (Hnil b))) as Hb.
  rewrite H in Ha. rewrite Ha in Hb. now injection Hb.
Qed.

End JsonFacts.

Section JsonItemFacts.

Lemma append_inv_head (p a b : string) : (p ++ a = p ++ b)%string -> a = b.
Proof. induction p as [|c p IH]; cbn; intros H; [exact H | injection H as H; auto]. Qed.

Lemma itemText_shape (item : DataService.DataItem) (r : string) :
  (itemText item ++ r
   = ("{" ++ JSON.quote "id" ++ ":")
     ++ numToString (DataService.id item)
     ++ String ","
          ((JSON.quote "name" ++ ":" ++ JSON.dquote)
           ++ JSON.quoteBody (DataService.name item) ++ JSON.dquote
           ++ ("," ++ JSON.quote "description" ++ ":" ++ JSON.dquote)
           ++ JSON.quoteBody (DataService.description item) ++ JSON.dquote
           ++ String "}" r))%string.
Proof.
  unfold itemText, JSON.quote. rewrite !append_assoc. reflexivity.
Qed.

Lemma itemText_terminated (a b : DataService.DataItem) (r1 r2 : string) :
  (itemText a ++ r1 = itemText b ++ r2)%string -> a = b /\ r1 = r2.
Proof.
  rewrite !itemText_shape. intros H.
  apply append_inv_head in H.
  apply lacks_terminated in H; try apply numToString_lacks_comma.
  destruct H as [Hid H]. apply numToString_inj in Hid.
  apply append_inv_head in H.
  apply quoteBody_terminated in H. destruct H as [Hname H].
  apply append_inv_head in H.
  apply quoteBody_terminated in H. destruct H as [Hdesc H].
  injection H as H.
  destruct a, b. cbn in *. subst. split; reflexivity.
Qed.

End JsonItemFacts.

Section JsonListFacts.

Lemma stringify_item (item : DataService.DataItem) :
  JSON.stringify (itemValue item) = Some (itemText item).
Proof.
  unfold itemText, itemValue. cbn [JSON.stringify flat_map snd fst app JSON.join].
  f_equal. rewrite !append_assoc. reflexivity.
Qed.

Lemma stringify_items (items : list DataService.DataItem) :
  JSON.stringify (JArr (map itemValue items))
  = Some ("[" ++ JSON.join "," (map itemText items) ++ "]")%string.
Proof.
  cbn [JSON.stringify]. rewrite map_map. do 4 f_equal.
  apply map_ext. intros item. now rewrite stringify_item.
Qed.

Lemma join_cons_text (item : DataService.DataItem) (items : list DataService.DataItem)
      (r : string) :
  (JSON.join "," (map itemText (item :: items)) ++ r
   = itemText item
     ++ match items with
        | [] => r
        | _ :: _ => String "," (JSON.join "," (map itemText items) ++ r)
        end)%string.
Proof.
  destruct items as [|b items]; [reflexivity|].
  cbn [map JSON.join]. rewrite append_assoc. reflexivity.
Qed.

Lemma itemText_starts (item : DataService.DataItem) (r : string) :
  exists rest, (itemText item ++ r)%string = String "{" rest.
Proof. eexists. reflexivity. Qed.

Lemma join_texts_inj (l1 l2 : list DataService.DataItem) :
  (JSON.join "," (map itemText l1) ++ "]" = JSON.join "," (map itemText l2) ++ "]")%string ->
  l1 = l2.
Proof.
  revert l2. induction l1 as [|a l1 IH]; intros [|b l2] H.
  - reflexivity.
  - rewrite join_cons_text in H. destruct (itemText_starts b
      match l2 with [] => "]" | _ :: _ => String "," (JSON.join "," (map itemText l2) ++ "]") end)
      as [rest E]. rewrite E in H. discriminate.
  - rewrite join_cons_text in H. destruct (itemText_starts a
      match l1 with [] => "]" | _ :: _ => String "," (JSON.join "," (map itemText l1) ++ "]") end)
      as [rest E]. rewrite E in H. discriminate.
  - rewrite !join_cons_text in H. apply itemText_terminated in H.
    destruct H as [-> H]. f_equal.
    destruct l1 as [|a1 l1], l2 as [|b2 l2]; try reflexivity; try discriminate.
    injection H as H. apply IH, H.
Qed.

Lemma sameItems_items (l1 l2 : list DataService.DataItem) :
  sameItems (map itemValue l1) (map itemValue l2) = true -> l1 = l2.
Proof.
  unfold sameItems, JSON.sameText. rewrite !stringify_items. cbn [JSON.optionStringEqb].
  intros H. apply String.eqb_eq in H. injection H as H. apply join_texts_inj, H.
Qed.

End JsonListFacts.

(** X22.  The comparator of the data subscription tells any two different
    lists of provider items apart, so no change between such lists is lost:
    when the store holds one list of provider items while broadcasting starts
    and then moves to a state with a different one, the new list is posted as
    [APP_STORE_DATA_UPDATE]. *)
Theorem X22_provider_changes_are_broadcast (w : StoreBridgeService.World)
        (state : AppStore.AppState) (l1 l2 : list DataService.DataItem) :
  AppStore.data (StoreBridgeService.store w) = map itemValue l1 ->
  AppStore.data state = map itemValue l2 ->
  l1 <> l2 ->
  sameItems (map itemValue l1) (map itemValue l2) = false
  /\ posted StoreBridgeService.DATA_EVENT
       (snd (StoreBridgeService.storeNext state
               (fst (StoreBridgeService.startBroadcastingStoreUpdates w))))
     = [itemsValue l2].
Proof.
  intros H1 H2 Hne.
  assert (Hdiff : sameItems (map itemValue l1) (map itemValue l2) = false).
  { destruct (sameItems (map itemValue l1) (map itemValue l2)) eqn:E; [|reflexivity].
    exfalso. apply Hne, sameItems_items, E. }
  split; [exact Hdiff|].
  destruct (storeNext_live state (live_start w)) as (_ & Hposted & _).
  rewrite Hposted. unfold AppStore.selectAppData. rewrite H1, H2.
  cbn [distinctAfter]. rewrite Hdiff. cbn [map].
  fold (itemsValue l2). rewrite sanitizeData_items. reflexivity.
Qed.

Lemma X22_witness :
  DataService.baseline <> DataService.baseline ++ [DataService.generated 8]
  /\ posted StoreBridgeService.DATA_EVENT
       (snd (StoreBridgeService.storeNext
               (AppStore.appReducer AppStore.initialAppState
                  (AppStore.loadAppSuccess
                     (map itemValue (DataService.baseline ++ [DataService.generated 8]))))
               (fst (StoreBridgeService.startBroadcastingStoreUpdates
                       (freshWorld
                          (AppStore.appReducer AppStore.initialAppState
                             (AppStore.loadAppSuccess (map itemValue DataService.baseline)))
                          DataService.initial)))))
     = [itemsValue (DataService.baseline ++ [DataService.generated 8])].
Proof.
  split; [discriminate|].
  apply (@X22_provider_changes_are_broadcast
           (freshWorld
              (AppStore.appReducer AppStore.initialAppState
                 (AppStore.loadAppSuccess (map itemValue DataService.baseline)))
              DataService.initial)
           (AppStore.appReducer AppStore.initialAppState
              (AppStore.loadAppSuccess
                 (map itemValue (DataService.baseline ++ [DataService.generated 8]))))
           DataService.baseline
           (DataService.baseline ++ [DataService.generated 8]));
    [reflexivity | reflexivity | discriminate].
Defined.
